(** * ThermoMaterAI: extraction pipeline and review workflow

    A shallow embedding of
      - [utils/processImage.ts]: [CUT_AREA], [cropImage], [recognizeText],
        [extractNumbers], [processImageAndExtractNumbers];
      - [components/NumberExtractorComponent.tsx]: the component state, the
        reset effect, the handlers and [renderContent].

    JavaScript strings are sequences of UTF-16 code units; asynchronous
    functions are written in an error monad that also records what they
    print on the console; React state is a record and every handler is a
    function from the state to the next state and the effects it caused. *)

From Stdlib Require Import String Ascii NArith Bool Arith Lia List.
Import ListNotations.

(* ================================================================== *)
(** * Part I: definitions                                              *)
(* ================================================================== *)

(** ** JavaScript strings *)

Module JS.

Definition code_unit := N.
Definition jsstring := list code_unit.

(** An ASCII literal as a JavaScript string. *)
Definition lit (s : string) : jsstring :=
  List.map N_of_ascii (list_ascii_of_string s).

(** [!s] is false exactly for a non-empty string. *)
Definition truthy (s : jsstring) : bool :=
  match s with [] => false | _ :: _ => true end.

(** [a === b] on strings. *)
Fixpoint eqb (a b : jsstring) : bool :=
  match a, b with
  | [], [] => true
  | x :: a', y :: b' => (x =? y)%N && eqb a' b'
  | _, _ => false
  end.

(** ECMAScript WhiteSpace and LineTerminator code points: what
    [String.prototype.trim] strips. *)
Definition is_white (c : code_unit) : bool :=
  ((9 <=? c) && (c <=? 13)               (* TAB LF VT FF CR *)
   || (c =? 32) || (c =? 160)            (* SP, NBSP *)
   || (c =? 5760)                        (* U+1680 *)
   || ((8192 <=? c) && (c <=? 8202))     (* U+2000 .. U+200A *)
   || (c =? 8232) || (c =? 8233)         (* LS, PS *)
   || (c =? 8239) || (c =? 8287)         (* U+202F, U+205F *)
   || (c =? 12288) || (c =? 65279))%N.   (* U+3000, U+FEFF *)

Fixpoint trimStart (s : jsstring) : jsstring :=
  match s with
  | c :: t => if is_white c then trimStart t else s
  | [] => []
  end.

Definition trimEnd (s : jsstring) : jsstring := rev (trimStart (rev s)).

Definition trim (s : jsstring) : jsstring := trimEnd (trimStart s).

(** Nothing but white space. *)
Definition whitespace (s : jsstring) : Prop := Forall (fun c => is_white c = true) s.

(** Neither the first nor the last code unit is white space. *)
Definition trimmed (s : jsstring) : Prop :=
  (forall c t, s = c :: t -> is_white c = false)
  /\ (forall front c, s = front ++ [c] -> is_white c = false).

(** Is [x] a substring of [s]?  ([String.prototype.includes]) *)
Fixpoint startsWith (s x : jsstring) : bool :=
  match x, s with
  | [], _ => true
  | a :: x', b :: s' => (a =? b)%N && startsWith s' x'
  | _ :: _, [] => false
  end.

Fixpoint includes (s x : jsstring) : bool :=
  startsWith s x || match s with [] => false | _ :: t => includes t x end.

End JS.

(** ** Regular expressions, as far as [/\d+(?:\.\d+)?/g] needs them *)

Module RegExp.
Import JS.

Inductive pattern : Type :=
| Digit                       (* \d *)
| Char (c : code_unit)        (* an escaped literal such as \. *)
| Seq (p q : pattern)         (* pq *)
| Plus (p : pattern)          (* p+, greedy *)
| Opt (p : pattern).          (* (?:p)?, greedy *)

(** [\d] without the unicode flag: the ten ASCII digits. *)
Definition is_digit (c : code_unit) : bool := ((48 <=? c) && (c <=? 57))%N.

(** One way of matching at the start of a string: what was consumed and
    what is left. *)
Definition split := (jsstring * jsstring)%type.

Definition extend (m : jsstring) (r : split) : split := (m ++ fst r, snd r).

(** A backtracking matcher explores the alternatives in priority order;
    [iterate] is the greedy loop of [p+]: one more iteration is preferred
    to stopping.  Every iteration of the patterns below consumes a code
    unit, so [length s] rounds are enough for [s]. *)
Fixpoint iterate (once : jsstring -> list split) (fuel : nat) (s : jsstring)
  : list split :=
  match fuel with
  | O => []
  | S fuel' =>
      flat_map (fun r => List.map (extend (fst r)) (iterate once fuel' (snd r)) ++ [r])
               (once s)
  end.

(** All the ways [p] matches a prefix of [s], the one a backtracking
    engine tries first at the head. *)
Fixpoint alternatives (p : pattern) (s : jsstring) : list split :=
  match p with
  | Digit =>
      match s with
      | c :: t => if is_digit c then [([c], t)] else []
      | [] => []
      end
  | Char a =>
      match s with
      | c :: t => if (c =? a)%N then [([c], t)] else []
      | [] => []
      end
  | Seq p q =>
      flat_map (fun r => List.map (extend (fst r)) (alternatives q (snd r)))
               (alternatives p s)
  | Plus p => iterate (alternatives p) (length s) s
  | Opt p => alternatives p s ++ [([], s)]
  end.

(** The match at the start of [s], if there is one. *)
Definition matchAt (p : pattern) (s : jsstring) : option split :=
  hd_error (alternatives p s).

(** [RegExp.prototype.exec] without the sticky flag: the match at the
    first index, from the current one on, where the pattern matches. *)
Fixpoint exec (p : pattern) (s : jsstring) : option split :=
  match matchAt p s with
  | Some r => Some r
  | None =>
      match s with
      | [] => None
      | _ :: t => exec p t
      end
  end.

(** The loop of [String.prototype.match] for a global pattern: collect
    the matches, resuming where the last one ended (one code unit further
    after an empty match). *)
Fixpoint matchLoop (p : pattern) (fuel : nat) (s : jsstring) : list jsstring :=
  match fuel with
  | O => []
  | S fuel' =>
      match exec p s with
      | None => []
      | Some ([], []) => [[]]
      | Some ([], _ :: rest) => [] :: matchLoop p fuel' rest
      | Some (m, rest) => m :: matchLoop p fuel' rest
      end
  end.

(** [s.match(p)] for [p] with the [g] flag: [null] when nothing matches. *)
Definition String_match (s : jsstring) (p : pattern) : option (list jsstring) :=
  match matchLoop p (S (length s)) s with
  | [] => None
  | ms => Some ms
  end.

End RegExp.

(** ** utils/processImage.ts *)

Module ProcessImage.
Import JS RegExp.

(** Rectangle defining the crop area. *)
Record Rect : Type := { x : N; y : N; width : N; height : N }.

Definition CUT_AREA : Rect := {| x := 900%N; y := 150%N; width := 158%N; height := 850%N |}.

(** What a [catch] clause can receive: an [Error] with its message, or any
    other value. *)
Inductive thrown : Type :=
| Error (message : jsstring)
| NotAnError (shown : jsstring).

(** A line of [console.error]: the label and the value printed after it. *)
Inductive printed : Type :=
| PrintedThrown (err : thrown)
| PrintedString (s : jsstring).

Record ConsoleLine : Type := { label : jsstring; arg : printed }.

(** A settled promise: the console lines written on the way, and either
    the rejection or the value. *)
Definition Async (A : Type) : Type := (list ConsoleLine * (thrown + A))%type.

Definition resolve {A} (a : A) : Async A := ([], inr a).
Definition throw {A} (e : thrown) : Async A := ([], inl e).
Definition console_error (l : jsstring) (v : printed) : Async unit :=
  ([{| label := l; arg := v |}], inr tt).

Definition await {A B} (m : Async A) (k : A -> Async B) : Async B :=
  match snd m with
  | inl e => (fst m, inl e)
  | inr a => (fst m ++ fst (k a), snd (k a))
  end.

Definition try_catch {A} (body : Async A) (handler : thrown -> Async A) : Async A :=
  match snd body with
  | inl e => (fst body ++ fst (handler e), snd (handler e))
  | inr a => body
  end.

Notation "x <- m ;; k" := (await m (fun x => k))
  (at level 61, m at next level, right associativity).
Notation "m ;;; k" := (await m (fun _ => k))
  (at level 61, right associativity).

(** [err instanceof Error ? err.message : 'Unknown error'] *)
Definition message_of (err : thrown) : jsstring :=
  match err with
  | Error m => m
  | NotAnError _ => lit "Unknown error"
  end.

(** [/\d+(?:\.\d+)?/] *)
Definition numberPattern : pattern :=
  Seq (Plus Digit) (Opt (Seq (Char 46%N) (Plus Digit))).

(** Extract integer or floating-point numbers from text. *)
Definition extractNumbers (text : jsstring) : list jsstring :=
  let matches := String_match text numberPattern in
  match matches with
  | Some ms => ms
  | None => []
  end.

Section Capabilities.

(** [ImageManipulator.manipulateAsync(uri, [{crop}], {format: PNG})]:
    the uri of the result, or what the engine throws. *)
Variable manipulateAsync : jsstring -> Rect -> thrown + jsstring.

(** [TextRecognition.recognize(uri)]: the text, or what the engine
    throws. *)
Variable recognize : jsstring -> thrown + jsstring.

(** Crop the image to the specified area. *)
Definition cropImage (uri : jsstring) : Async jsstring :=
  try_catch
    (result <- ([], manipulateAsync uri CUT_AREA) ;;
     resolve result)
    (fun err =>
       console_error (lit "Crop Error:") (PrintedThrown err) ;;;
       throw (Error (lit "Image cropping failed."))).

(** Perform OCR on the given image URI. *)
Definition recognizeText (uri : jsstring) : Async jsstring :=
  try_catch
    (result <- ([], recognize uri) ;;
     resolve result)
    (fun err =>
       console_error (lit "OCR Error:") (PrintedThrown err) ;;;
       throw (Error (lit "Text recognition failed."))).

(** Full pipeline: crop image, run OCR, and extract numbers. *)
Definition processImageAndExtractNumbers (imageUri : jsstring)
  : Async (list jsstring) :=
  try_catch
    (croppedUri <- cropImage imageUri ;;
     ocrText <- recognizeText croppedUri ;;
     resolve (extractNumbers ocrText))
    (fun err =>
       let message := message_of err in
       console_error (lit "Process Pipeline Error:") (PrintedString message) ;;;
       throw (Error (lit "Processing pipeline failed: " ++ message))).

End Capabilities.

End ProcessImage.

(** ** components/NumberExtractorComponent.tsx *)

Module NumberExtractorComponent.
Import JS ProcessImage.

(** The two numbers displayed to and modified by the user:
    [[string, string]]. *)
Definition NumberPair := (jsstring * jsstring)%type.

Record NumberExtractorProps : Type := {
  imageUri : option jsstring;        (* string | null *)
  onProcessReset : bool              (* is the optional callback given? *)
}.

(** The seven [useState] cells. *)
Record State : Type := {
  allExtractedNumbers : list jsstring;
  displayedNumbers : option NumberPair;
  loading : bool;
  isModifyingNumbers : bool;
  numberInput1 : jsstring;
  numberInput2 : jsstring;
  showStartButton : bool
}.

(** What the component does to the world around it. *)
Inductive Effect : Type :=
| Alert (title message : jsstring)
| ConsoleError (line : ConsoleLine)
| CallOnExtractionComplete (numbers : NumberPair)
| CallOnProcessReset.

(** A piece of handler code: it updates the state cells and leaves a
    trace of effects. *)
Definition Action := State -> State * list Effect.

Definition skip : Action := fun s => (s, []).
Definition perform (e : Effect) : Action := fun s => (s, [e]).
Definition andThen (a b : Action) : Action :=
  fun s => let (s1, e1) := a s in let (s2, e2) := b s1 in (s2, e1 ++ e2).

Notation "a ;; b" := (andThen a b) (at level 61, right associativity).

Definition setAllExtractedNumbers (v : list jsstring) : Action := fun s =>
  ({| allExtractedNumbers := v;
      displayedNumbers := displayedNumbers s;
      loading := loading s;
      isModifyingNumbers := isModifyingNumbers s;
      numberInput1 := numberInput1 s;
      numberInput2 := numberInput2 s;
      showStartButton := showStartButton s |}, []).

Definition setDisplayedNumbers (v : option NumberPair) : Action := fun s =>
  ({| allExtractedNumbers := allExtractedNumbers s;
      displayedNumbers := v;
      loading := loading s;
      isModifyingNumbers := isModifyingNumbers s;
      numberInput1 := numberInput1 s;
      numberInput2 := numberInput2 s;
      showStartButton := showStartButton s |}, []).

Definition setLoading (v : bool) : Action := fun s =>
  ({| allExtractedNumbers := allExtractedNumbers s;
      displayedNumbers := displayedNumbers s;
      loading := v;
      isModifyingNumbers := isModifyingNumbers s;
      numberInput1 := numberInput1 s;
      numberInput2 := numberInput2 s;
      showStartButton := showStartButton s |}, []).

Definition setIsModifyingNumbers (v : bool) : Action := fun s =>
  ({| allExtractedNumbers := allExtractedNumbers s;
      displayedNumbers := displayedNumbers s;
      loading := loading s;
      isModifyingNumbers := v;
      numberInput1 := numberInput1 s;
      numberInput2 := numberInput2 s;
      showStartButton := showStartButton s |}, []).

Definition setNumberInput1 (v : jsstring) : Action := fun s =>
  ({| allExtractedNumbers := allExtractedNumbers s;
      displayedNumbers := displayedNumbers s;
      loading := loading s;
      isModifyingNumbers := isModifyingNumbers s;
      numberInput1 := v;
      numberInput2 := numberInput2 s;
      showStartButton := showStartButton s |}, []).

Definition setNumberInput2 (v : jsstring) : Action := fun s =>
  ({| allExtractedNumbers := allExtractedNumbers s;
      displayedNumbers := displayedNumbers s;
      loading := loading s;
      isModifyingNumbers := isModifyingNumbers s;
      numberInput1 := numberInput1 s;
      numberInput2 := v;
      showStartButton := showStartButton s |}, []).

Definition setShowStartButton (v : bool) : Action := fun s =>
  ({| allExtractedNumbers := allExtractedNumbers s;
      displayedNumbers := displayedNumbers s;
      loading := loading s;
      isModifyingNumbers := isModifyingNumbers s;
      numberInput1 := numberInput1 s;
      numberInput2 := numberInput2 s;
      showStartButton := v |}, []).

(** The initial values given to [useState]. *)
Definition initialState : State :=
  {| allExtractedNumbers := [];
     displayedNumbers := None;
     loading := false;
     isModifyingNumbers := false;
     numberInput1 := [];
     numberInput2 := [];
     showStartButton := false |}.

(** [!!imageUri]: neither [null] nor the empty string. *)
Definition hasImage (p : NumberExtractorProps) : bool :=
  match imageUri p with
  | Some uri => truthy uri
  | None => false
  end.

(** The body of [useEffect(..., [imageUri])]: both branches of its test
    on [imageUri !== null] reset every cell. *)
Definition resetEffect (p : NumberExtractorProps) : Action :=
  match imageUri p with
  | Some _ =>
      setAllExtractedNumbers [] ;; setDisplayedNumbers None ;;
      setLoading false ;; setIsModifyingNumbers false ;;
      setNumberInput1 [] ;; setNumberInput2 [] ;;
      setShowStartButton false
  | None =>
      setAllExtractedNumbers [] ;; setDisplayedNumbers None ;;
      setLoading false ;; setIsModifyingNumbers false ;;
      setNumberInput1 [] ;; setNumberInput2 [] ;;
      setShowStartButton false
  end.

(** [handleProcessImage] up to its [await]. *)
Definition handleProcessImage_start (p : NumberExtractorProps) : Action :=
  if negb (hasImage p) then
    perform (Alert (lit "Error") (lit "No image URI available for processing."))
  else
    setLoading true ;;
    setAllExtractedNumbers [] ;; setDisplayedNumbers None ;;
    setIsModifyingNumbers false ;; setShowStartButton false.

Definition notifyReset (p : NumberExtractorProps) : Action :=
  if onProcessReset p then perform CallOnProcessReset else skip.

(** [handleProcessImage] from the point where the awaited pipeline has
    settled: the [try] body after the [await], the [catch] clause, and the
    [finally] clause.  [p] holds the props the handler closed over; the
    setters act on the state that is live when the promise settles. *)
Definition handleProcessImage_resume (p : NumberExtractorProps)
    (outcome : thrown + list jsstring) : Action :=
  match outcome with
  | inr numbers =>
      setAllExtractedNumbers numbers ;;
      (if 2 <=? length numbers then
         setDisplayedNumbers (Some (nth 0 numbers [], nth 1 numbers []))
       else
         setDisplayedNumbers None ;;
         perform (Alert (lit "Extraction Failed")
                    (lit "Could not find at least two numbers in the selected area.")) ;;
         notifyReset p)
  | inl error =>
      perform (ConsoleError {| label := lit "Error processing image:";
                               arg := PrintedThrown error |}) ;;
      let message := message_of error in
      perform (Alert (lit "Processing Error") (lit "An error occurred: " ++ message)) ;;
      setDisplayedNumbers None ;;
      notifyReset p
  end ;;
  setLoading false.

(** The handlers below read the cells of the render they were created
    in, [s], and then run their setters. *)

Definition handleModifyNumbers : Action := fun s =>
  match displayedNumbers s with
  | Some numbers =>
      (setIsModifyingNumbers true ;;
       setNumberInput1 (fst numbers) ;;
       setNumberInput2 (snd numbers) ;;
       setShowStartButton false) s
  | None => skip s
  end.

Definition handleAcceptNumbers : Action := fun s =>
  match displayedNumbers s with
  | Some _ => (setIsModifyingNumbers false ;; setShowStartButton true) s
  | None => skip s
  end.

Definition handleSaveChanges : Action := fun s =>
  let trimmedInput1 := trim (numberInput1 s) in
  let trimmedInput2 := trim (numberInput2 s) in
  if JS.eqb trimmedInput1 [] || JS.eqb trimmedInput2 [] then
    perform (Alert (lit "Invalid Input") (lit "Numbers cannot be empty.")) s
  else
    (setDisplayedNumbers (Some (trimmedInput1, trimmedInput2)) ;;
     setIsModifyingNumbers false ;;
     setShowStartButton true) s.

Definition handleCancelModification : Action :=
  setIsModifyingNumbers false.

Definition handleStart : Action := fun s =>
  match displayedNumbers s with
  | Some numbers => perform (CallOnExtractionComplete numbers) s
  | None => skip s
  end.

(** What [renderContent] returns, named after the states of the review
    workflow. *)
Inductive View : Type :=
| NoImage                                   (* "No image selected yet." *)
| Processing                                (* the ActivityIndicator *)
| InsufficientResults (count : nat)         (* "Found n number(s)." *)
| ProcessPrompt (disabled : bool)           (* the "Process Image" button *)
| AwaitingDecision (numbers : NumberPair)   (* "Modify Numbers", "Accept & Continue" *)
| Modifying (numbers : NumberPair) (draft1 draft2 : jsstring)
                                            (* two inputs, "Save Changes", "Cancel" *)
| Ready (numbers : NumberPair)              (* "Start" *)
| Blank.                                    (* null *)

Definition isSome {A} (o : option A) : bool :=
  match o with Some _ => true | None => false end.

Definition renderContent (p : NumberExtractorProps) (s : State) : View :=
  if negb (hasImage p) then NoImage
  else if loading s then Processing
  else
    let rest :=
      match displayedNumbers s with
      | Some numbers =>
          if negb (isModifyingNumbers s) && negb (showStartButton s)
          then AwaitingDecision numbers
          else if isModifyingNumbers s
          then Modifying numbers (numberInput1 s) (numberInput2 s)
          else if showStartButton s then Ready numbers
          else Blank
      | None => Blank
      end in
    if negb (isSome (displayedNumbers s)) && (length (allExtractedNumbers s) <? 2) then
      if 0 <? length (allExtractedNumbers s) then
        InsufficientResults (length (allExtractedNumbers s))
      else if negb (isSome (displayedNumbers s)) && negb (loading s) then
        ProcessPrompt (negb (hasImage p) || loading s || isSome (displayedNumbers s))
      else rest
    else rest.

(** The controls of the component. *)
Inductive Control : Type :=
| ProcessImageButton
| ModifyNumbersButton
| AcceptButton
| SaveChangesButton
| CancelButton
| StartButton
| Input1 (text : jsstring)
| Input2 (text : jsstring).

(** Which controls a view puts on the screen (and enables). *)
Definition offers (v : View) (c : Control) : bool :=
  match v, c with
  | ProcessPrompt disabled, ProcessImageButton => negb disabled
  | AwaitingDecision _, (ModifyNumbersButton | AcceptButton) => true
  | Modifying _ _ _, (SaveChangesButton | CancelButton | Input1 _ | Input2 _) => true
  | Ready _, StartButton => true
  | _, _ => false
  end.

(** The handler wired to each control. *)
Definition handlerOf (p : NumberExtractorProps) (c : Control) : Action :=
  match c with
  | ProcessImageButton => handleProcessImage_start p
  | ModifyNumbersButton => handleModifyNumbers
  | AcceptButton => handleAcceptNumbers
  | SaveChangesButton => handleSaveChanges
  | CancelButton => handleCancelModification
  | StartButton => handleStart
  | Input1 text => setNumberInput1 text
  | Input2 text => setNumberInput2 text
  end.

(** A mounted component: its props, its state cells, and the calls of
    [handleProcessImage] that are suspended at their [await], each with
    the props it closed over. *)
Record Component : Type := {
  props : NumberExtractorProps;
  state : State;
  inFlight : list NumberExtractorProps
}.

Inductive Event : Type :=
| NewImage (uri : option jsstring)      (* the parent passes another [imageUri] *)
| User (c : Control)                    (* the user operates a control *)
| Settled (k : nat) (outcome : thrown + list jsstring).
                                        (* the k-th suspended pipeline call settles *)

Definition sameUri (a b : option jsstring) : bool :=
  match a, b with
  | Some u, Some v => JS.eqb u v
  | None, None => true
  | _, _ => false
  end.

Definition mount (p : NumberExtractorProps) : Component :=
  {| props := p; state := fst (resetEffect p initialState); inFlight := [] |}.

Fixpoint removeNth {A} (k : nat) (l : list A) : list A :=
  match l, k with
  | [], _ => []
  | _ :: t, O => t
  | a :: t, S k' => a :: removeNth k' t
  end.

(** One event; [None] when the event cannot happen in this component
    (the control is not on the screen, no such suspended call). *)
Definition step (c : Component) (e : Event) : option (Component * list Effect) :=
  match e with
  | NewImage uri =>
      let p := {| imageUri := uri; onProcessReset := onProcessReset (props c) |} in
      if sameUri uri (imageUri (props c)) then
        Some (c, [])                  (* the dependency did not change *)
      else
        let (s, effs) := resetEffect p (state c) in
        Some ({| props := p; state := s; inFlight := inFlight c |}, effs)
  | User ctl =>
      if offers (renderContent (props c) (state c)) ctl then
        let (s, effs) := handlerOf (props c) ctl (state c) in
        let started :=
          match ctl with
          | ProcessImageButton => if hasImage (props c) then [props c] else []
          | _ => []
          end in
        Some ({| props := props c; state := s; inFlight := inFlight c ++ started |}, effs)
      else None
  | Settled k outcome =>
      match nth_error (inFlight c) k with
      | Some closed =>
          let (s, effs) := handleProcessImage_resume closed outcome (state c) in
          Some ({| props := props c; state := s; inFlight := removeNth k (inFlight c) |}, effs)
      | None => None
      end
  end.

Fixpoint run (c : Component) (es : list Event) : option (Component * list Effect) :=
  match es with
  | [] => Some (c, [])
  | e :: es' =>
      match step c e with
      | Some (c1, effs1) =>
          match run c1 es' with
          | Some (c2, effs2) => Some (c2, effs1 ++ effs2)
          | None => None
          end
      | None => None
      end
  end.

(** How many times the parent's [onExtractionComplete] was called. *)
Definition isCompletion (e : Effect) : bool :=
  match e with CallOnExtractionComplete _ => true | _ => false end.

Definition completions (effs : list Effect) : nat :=
  length (filter isCompletion effs).

Definition isStart (e : Event) : bool :=
  match e with User StartButton => true | _ => false end.

(** What the component shows. *)
Definition viewOf (c : Component) : View := renderContent (props c) (state c).

(** Typing into one of the two inputs. *)
Definition isEdit (c : Control) : bool :=
  match c with Input1 _ | Input2 _ => true | _ => false end.

(** The cells as a settled pipeline call leaves them. *)
Definition settledState (outcome : thrown + list jsstring) (s : State) : State :=
  {| allExtractedNumbers :=
       match outcome with
       | inr numbers => numbers
       | inl _ => allExtractedNumbers s
       end;
     displayedNumbers :=
       match outcome with
       | inr numbers =>
           if 2 <=? length numbers
           then Some (nth 0 numbers [], nth 1 numbers [])
           else None
       | inl _ => None
       end;
     loading := false;
     isModifyingNumbers := isModifyingNumbers s;
     numberInput1 := numberInput1 s;
     numberInput2 := numberInput2 s;
     showStartButton := showStartButton s |}.

End NumberExtractorComponent.

(** ** The NumberExtractor as the specification words it

    "Scan the text left to right; a token is any maximal run matching the
    pattern: one or more digits, optionally followed by a decimal point
    and one or more digits."  This is the reading that [extractNumbers] is
    compared with; nothing here is taken from the code. *)

Module NumericToken.
Import JS.

Definition digit (c : code_unit) : Prop := (48 <= c <= 57)%N.

(** One or more digits. *)
Definition digits (d : jsstring) : Prop := d <> [] /\ Forall digit d.

Definition point : code_unit := 46%N.

Inductive matchesPattern : jsstring -> Prop :=
| integer : forall d, digits d -> matchesPattern d
| decimal : forall d f, digits d -> digits f -> matchesPattern (d ++ point :: f).

Definition prefix (t s : jsstring) : Prop := exists rest, s = t ++ rest.

(** [t] occurs somewhere in [s]. *)
Definition occursIn (t s : jsstring) : Prop := exists before after, s = before ++ t ++ after.

(** The longest token at the start of [s]. *)
Definition maximalAt (t s : jsstring) : Prop :=
  matchesPattern t /\ prefix t s /\
  forall t', matchesPattern t' -> prefix t' s -> length t' <= length t.

(** The left-to-right scan: where no token starts, move on by one code
    unit; where one starts, take the maximal one and go on after it. *)
Inductive tokensOf : jsstring -> list jsstring -> Prop :=
| scan_end : tokensOf [] []
| scan_skip : forall c s ts,
    (forall t, matchesPattern t -> ~ prefix t (c :: s)) ->
    tokensOf s ts ->
    tokensOf (c :: s) ts
| scan_take : forall t rest ts,
    maximalAt t (t ++ rest) ->
    tokensOf rest ts ->
    tokensOf (t ++ rest) (t :: ts).

End NumericToken.

(** ** Two functions used in the proofs about [extractNumbers] *)

Module Scanner.
Import JS RegExp.

(** The longest run of digits at the start of [s], and what follows. *)
Fixpoint digitRun (s : jsstring) : split :=
  match s with
  | c :: t => if is_digit c then (c :: fst (digitRun t), snd (digitRun t)) else ([], s)
  | [] => ([], [])
  end.

(** What [/\d+(?:\.\d+)?/] matches at the start of [s], computed without
    backtracking. *)
Definition tokenAt (s : jsstring) : option split :=
  let d := fst (digitRun s) in
  let r := snd (digitRun s) in
  match d with
  | [] => None
  | _ :: _ =>
      match r with
      | c :: r' =>
          if (c =? 46)%N then
            match fst (digitRun r') with
            | [] => Some (d, r)
            | _ :: _ => Some (d ++ c :: fst (digitRun r'), snd (digitRun r'))
            end
          else Some (d, r)
      | [] => Some (d, r)
      end
  end.

End Scanner.

(** ** Concrete components, used to instantiate the theorems *)

Module Sample.
Import JS ProcessImage NumberExtractorComponent.

Definition photo : NumberExtractorProps :=
  {| imageUri := Some (lit "file:///photo-1.jpg"); onProcessReset := true |}.

Definition nextPhoto : NumberExtractorProps :=
  {| imageUri := Some (lit "file:///photo-2.jpg"); onProcessReset := true |}.

Definition readings : NumberPair := (lit "36.6", lit "101.2").

(** The recognised text "36.6°C 101.2°C". *)
Definition ocrText : jsstring :=
  lit "36.6" ++ [176%N] ++ lit "C 101.2" ++ [176%N] ++ lit "C".

Definition cropper (uri : jsstring) (_ : Rect) : thrown + jsstring :=
  inr (uri ++ lit ".cropped.png").

Definition recognizer (_ : jsstring) : thrown + jsstring := inr ocrText.

Definition cells (shown : option NumberPair) (busy modifying : bool)
    (input1 input2 : jsstring) (start : bool) : State :=
  {| allExtractedNumbers := [lit "36.6"; lit "101.2"];
     displayedNumbers := shown;
     loading := busy;
     isModifyingNumbers := modifying;
     numberInput1 := input1;
     numberInput2 := input2;
     showStartButton := start |}.

Definition showing (s : State) : Component :=
  {| props := photo; state := s; inFlight := [] |}.

(** AwaitingDecision(["36.6","101.2"]). *)
Definition awaiting : Component :=
  showing (cells (Some readings) false false [] [] false).

(** Modifying with the drafts ("", "100"). *)
Definition editingEmpty : Component :=
  showing (cells (Some readings) false true [] (lit "100") false).

(** Modifying with the drafts (" 10 ", "20"). *)
Definition editingPadded : Component :=
  showing (cells (Some readings) false true (lit " 10 ") (lit "20") false).

(** Ready(["36.6","101.2"]). *)
Definition ready : Component :=
  showing (cells (Some readings) false false [] [] true).

(** A pipeline call is running on the first photo. *)
Definition processing : Component :=
  {| props := photo;
     state := {| allExtractedNumbers := []; displayedNumbers := None;
                 loading := true; isModifyingNumbers := false;
                 numberInput1 := []; numberInput2 := [];
                 showStartButton := false |};
     inFlight := [photo] |}.

End Sample.

(** ** Sequences of events, and what is counted along them *)

Module Traces.
Import JS ProcessImage NumberExtractorComponent.

(** Every event but a change of [imageUri]. *)
Definition keepsImage (e : Event) : bool :=
  match e with NewImage _ => false | _ => true end.

(** How many times the parent's [onProcessReset] was called. *)
Definition isResetCall (e : Effect) : bool :=
  match e with CallOnProcessReset => true | _ => false end.

Definition resets (effs : list Effect) : nat :=
  length (filter isResetCall effs).

(** A pipeline call that settles without giving a pair: it was rejected,
    or it found fewer than two numbers. *)
Definition endsWithoutPair (e : Event) : bool :=
  match e with
  | Settled _ (inl _) => true
  | Settled _ (inr numbers) => negb (2 <=? length numbers)
  | _ => false
  end.

(** The parent gave [onProcessReset], to the component and to every
    suspended call. *)
Definition resetGiven (c : Component) : Prop :=
  onProcessReset (props c) = true
  /\ Forall (fun closed => onProcessReset closed = true) (inFlight c).

(** At most one pipeline call is suspended, and the state cells are in
    one of the combinations that [renderContent] has a screen for. *)
Definition orderly (p : NumberExtractorProps) (c : Component) : Prop :=
  props c = p
  /\ (isModifyingNumbers (state c) = true -> showStartButton (state c) = false)
  /\ match inFlight c with
     | [] =>
         loading (state c) = false
         /\ (displayedNumbers (state c) = None ->
             length (allExtractedNumbers (state c)) < 2)
     | [closed] =>
         closed = p /\ hasImage p = true
         /\ loading (state c) = true
         /\ displayedNumbers (state c) = None
         /\ allExtractedNumbers (state c) = []
         /\ isModifyingNumbers (state c) = false
     | _ :: _ :: _ => False
     end.

(** The component once a change of [imageUri] to [uri] has run the reset
    effect: the props carry the new uri, every cell has its initial value,
    and the suspended pipeline calls are the ones there were. *)
Definition withNewImage (c : Component) (uri : jsstring) : Component :=
  {| props := {| imageUri := Some uri; onProcessReset := onProcessReset (props c) |};
     state := initialState;
     inFlight := inFlight c |}.

(** The alert of [handleProcessImage] for a missing image. *)
Definition noImageAlert : Effect :=
  Alert (lit "Error") (lit "No image URI available for processing.").

End Traces.

(** ** index.tsx: the application around the component *)

Module App.
Import JS ProcessImage NumberExtractorComponent.

(** The two [useState] cells of [App]. *)
Record AppState : Type := {
  selectedImageUri : option jsstring;
  finalNumbers : option NumberPair
}.

(** What reaches the user or the console, from [App] or from its child. *)
Inductive Output : Type :=
| Shown (title message : jsstring)                    (* Alert.alert *)
| Logged (text : jsstring) (numbers : option NumberPair)  (* console.log *)
| ErrorLine (line : ConsoleLine).                     (* console.error *)

Definition AppAction := AppState -> AppState * list Output.

Definition setSelectedImageUri (v : option jsstring) : AppAction := fun a =>
  ({| selectedImageUri := v; finalNumbers := finalNumbers a |}, []).

Definition setFinalNumbers (v : option NumberPair) : AppAction := fun a =>
  ({| selectedImageUri := selectedImageUri a; finalNumbers := v |}, []).

Definition put (o : Output) : AppAction := fun a => (a, [o]).

Definition next (f g : AppAction) : AppAction :=
  fun a => let (a1, o1) := f a in let (a2, o2) := g a1 in (a2, o1 ++ o2).

Notation "f >> g" := (next f g) (at level 61, right associativity).

(** What [launchImageLibraryAsync] resolves to. *)
Inductive PickerResult : Type :=
| Canceled
| Picked (assets : list jsstring).     (* the uri of each asset *)

(** [handlePickImage] up to [await requestMediaLibraryPermissionsAsync()]. *)
Definition handlePickImage_start : AppAction :=
  setSelectedImageUri None >> setFinalNumbers None.

(** ... from there to [await launchImageLibraryAsync(...)]; [false] when
    the handler returns instead. *)
Definition handlePickImage_permission (granted : bool) : AppAction * bool :=
  if negb granted then
    (put (Shown (lit "Permission Denied") (lit "Access to media library is required.")),
     false)
  else (fun a => (a, []), true).

(** ... and from there to the end.  With no asset, [result.assets[0].uri]
    throws and the call ends without a setter. *)
Definition handlePickImage_picked (result : PickerResult) : AppAction :=
  match result with
  | Canceled => fun a => (a, [])
  | Picked (uri :: _) => setSelectedImageUri (Some uri)
  | Picked [] => fun a => (a, [])
  end.

(** Called when the user has accepted or modified the numbers and is
    ready to proceed. *)
Definition handleExtractionComplete (numbers : NumberPair) : AppAction :=
  put (Logged (lit "Final numbers ready:") (Some numbers)) >>
  setFinalNumbers (Some numbers) >>
  put (Shown (lit "Ready to Start")
         (lit "Numbers for game: " ++ fst numbers ++ lit " and " ++ snd numbers)).

Definition handleProcessReset : AppAction :=
  put (Logged (lit "Number extraction process reset/failed.") None).

(** The title of the button of [App]. *)
Definition buttonTitle (a : AppState) : jsstring :=
  match selectedImageUri a with
  | Some uri => if truthy uri then lit "Pick Another Image" else lit "Select Image"
  | None => lit "Select Image"
  end.

(** The effects of the child, with the two callbacks that [App] passes
    to it. *)
Fixpoint deliver (effs : list Effect) : AppAction :=
  match effs with
  | [] => fun a => (a, [])
  | Alert title message :: rest => put (Shown title message) >> deliver rest
  | ConsoleError line :: rest => put (ErrorLine line) >> deliver rest
  | CallOnExtractionComplete numbers :: rest =>
      handleExtractionComplete numbers >> deliver rest
  | CallOnProcessReset :: rest => handleProcessReset >> deliver rest
  end.

(** Where a suspended call of [handlePickImage] waits. *)
Inductive PickStage : Type := AwaitingPermission | AwaitingPicker.

(** The application on the screen: the cells of [App], the
    [NumberExtractorComponent] if it is mounted, the suspended calls of
    [handlePickImage], and the pipeline calls started by components that
    have since been unmounted. *)
Record Screen : Type := {
  cells : AppState;
  child : option Component;
  picking : list PickStage;
  orphans : list NumberExtractorProps
}.

Definition initialScreen : Screen :=
  {| cells := {| selectedImageUri := None; finalNumbers := None |};
     child := None; picking := []; orphans := [] |}.

Definition suspendedIn (c : option Component) : list NumberExtractorProps :=
  match c with Some c => inFlight c | None => [] end.

(** [{selectedImageUri ? <NumberExtractorComponent .../> : <View>...}]: the
    child is there exactly while [selectedImageUri] is truthy; it is given
    [handleProcessReset], and a child that stays sees its [imageUri]
    change. *)
Definition render (a : AppState) (old : option Component)
    (orph : list NumberExtractorProps)
  : option Component * list NumberExtractorProps :=
  let unmounted := (None, orph ++ suspendedIn old) in
  match selectedImageUri a with
  | Some uri =>
      if truthy uri then
        (Some match old with
              | Some c =>
                  match step c (NewImage (Some uri)) with
                  | Some (c', _) => c'
                  | None => c
                  end
              | None => mount {| imageUri := Some uri; onProcessReset := true |}
              end,
         orph)
      else unmounted
  | None => unmounted
  end.

Fixpoint setNth {A} (k : nat) (v : A) (l : list A) : list A :=
  match l, k with
  | [], _ => []
  | _ :: t, O => v :: t
  | a :: t, S k' => a :: setNth k' v t
  end.

Inductive AppEvent : Type :=
| PressPick                                         (* the button of [App] *)
| PermissionAnswered (k : nat) (granted : bool)
| PickerAnswered (k : nat) (result : PickerResult)
| InChild (ctl : Control)                           (* a control of the child *)
| ChildSettled (k : nat) (outcome : thrown + list jsstring)
| OrphanSettled (k : nat) (outcome : thrown + list jsstring).

(** A step of the child, its effects delivered to [App]. *)
Definition childStep (s : Screen) (e : Event) : option (Screen * list Output) :=
  match child s with
  | Some c =>
      match step c e with
      | Some (c', effs) =>
          let (a, outs) := deliver effs (cells s) in
          Some ({| cells := a; child := Some c';
                   picking := picking s; orphans := orphans s |}, outs)
      | None => None
      end
  | None => None
  end.

Definition appStep (s : Screen) (e : AppEvent) : option (Screen * list Output) :=
  match e with
  | PressPick =>
      let (a, outs) := handlePickImage_start (cells s) in
      let (ch, orph) := render a (child s) (orphans s) in
      Some ({| cells := a; child := ch;
               picking := picking s ++ [AwaitingPermission]; orphans := orph |}, outs)
  | PermissionAnswered k granted =>
      match nth_error (picking s) k with
      | Some AwaitingPermission =>
          let (act, goesOn) := handlePickImage_permission granted in
          let (a, outs) := act (cells s) in
          Some ({| cells := a; child := child s;
                   picking := if goesOn then setNth k AwaitingPicker (picking s)
                              else removeNth k (picking s);
                   orphans := orphans s |}, outs)
      | _ => None
      end
  | PickerAnswered k result =>
      match nth_error (picking s) k with
      | Some AwaitingPicker =>
          let (a, outs) := handlePickImage_picked result (cells s) in
          let (ch, orph) := render a (child s) (orphans s) in
          Some ({| cells := a; child := ch;
                   picking := removeNth k (picking s); orphans := orph |}, outs)
      | _ => None
      end
  | InChild ctl => childStep s (User ctl)
  | ChildSettled k outcome => childStep s (Settled k outcome)
  | OrphanSettled k outcome =>
      (* the setters of an unmounted component do nothing; the alert and
         the callback still happen *)
      match nth_error (orphans s) k with
      | Some closed =>
          let effs := snd (handleProcessImage_resume closed outcome initialState) in
          let (a, outs) := deliver effs (cells s) in
          Some ({| cells := a; child := child s; picking := picking s;
                   orphans := removeNth k (orphans s) |}, outs)
      | None => None
      end
  end.

Fixpoint appRun (s : Screen) (es : list AppEvent) : option (Screen * list Output) :=
  match es with
  | [] => Some (s, [])
  | e :: es' =>
      match appStep s e with
      | Some (s1, outs1) =>
          match appRun s1 es' with
          | Some (s2, outs2) => Some (s2, outs1 ++ outs2)
          | None => None
          end
      | None => None
      end
  end.

End App.

(* ================================================================== *)
(** * Part II: theorems                                                *)
(* ================================================================== *)

(** ** The regular expression of [extractNumbers] *)

Lemma hd_error_app {A} (l1 l2 : list A) :
  hd_error (l1 ++ l2) =
  match hd_error l1 with Some a => Some a | None => hd_error l2 end.
Proof. destruct l1; reflexivity. Qed.

Lemma hd_error_map {A B} (f : A -> B) (l : list A) :
  hd_error (map f l) = option_map f (hd_error l).
Proof. destruct l; reflexivity. Qed.

Lemma hd_error_flat_map {A B} (f : A -> list B) (l : list A) :
  hd_error (flat_map f l) =
  match l with
  | [] => None
  | a :: t =>
      match hd_error (f a) with
      | Some b => Some b
      | None => hd_error (flat_map f t)
      end
  end.
Proof. destruct l as [|a t]; [reflexivity|]. simpl. apply hd_error_app. Qed.

Section DigitRuns.
Import JS RegExp Scanner.

Lemma digitRun_app (s : jsstring) : fst (digitRun s) ++ snd (digitRun s) = s.
Proof.
  induction s as [|c t IH]; [reflexivity|].
  simpl. destruct (is_digit c); simpl; [now rewrite IH | reflexivity].
Qed.

Lemma digitRun_digits (s : jsstring) :
  Forall (fun c => is_digit c = true) (fst (digitRun s)).
Proof.
  induction s as [|c t IH]; simpl; [constructor|].
  destruct (is_digit c) eqn:E; simpl; [constructor; assumption | constructor].
Qed.

Lemma digitRun_none (s : jsstring) : fst (digitRun s) = [] -> snd (digitRun s) = s.
Proof.
  intros H. rewrite <- (digitRun_app s) at 2. now rewrite H.
Qed.

(** A run of digits in front of [r] is the beginning of the longest
    run. *)
Lemma digitRun_prepend (d r : jsstring) :
  Forall (fun c => is_digit c = true) d ->
  digitRun (d ++ r) = (d ++ fst (digitRun r), snd (digitRun r)).
Proof.
  induction 1 as [|c d Hc _ IH]; simpl.
  - now destruct (digitRun r).
  - rewrite Hc, IH. reflexivity.
Qed.

Lemma digitRun_nondigit (c : code_unit) (s : jsstring) :
  is_digit c = false -> digitRun (c :: s) = ([], c :: s).
Proof. intros H. simpl. now rewrite H. Qed.

(** The greedy loop [\d+] tries the longest run of digits first. *)
Lemma iterate_digit (n : nat) : forall s, length s <= n ->
  hd_error (iterate (alternatives Digit) n s) =
  match fst (digitRun s) with
  | [] => None
  | _ :: _ => Some (digitRun s)
  end.
Proof.
  induction n as [|n IH]; intros s Hn.
  - destruct s; [reflexivity | simpl in Hn; lia].
  - destruct s as [|c t]; [reflexivity|].
    simpl in Hn. cbn [iterate alternatives digitRun].
    destruct (is_digit c) eqn:Hc; [|reflexivity].
    cbn [flat_map fst snd]. rewrite app_nil_r, hd_error_app, hd_error_map.
    rewrite IH by lia. cbn [fst snd].
    destruct (fst (digitRun t)) eqn:Ht; cbn.
    + now rewrite (digitRun_none t Ht).
    + unfold extend. cbn. now rewrite Ht.
Qed.

Lemma plus_digit (s : jsstring) :
  hd_error (alternatives (Plus Digit) s) =
  match fst (digitRun s) with
  | [] => None
  | _ :: _ => Some (digitRun s)
  end.
Proof. cbn [alternatives]. now apply iterate_digit. Qed.
End DigitRuns.

Section MatchAtStart.
Import JS RegExp Scanner ProcessImage.

Lemma alternatives_Seq (p q : pattern) (s : jsstring) :
  alternatives (Seq p q) s =
  flat_map (fun r => map (extend (fst r)) (alternatives q (snd r))) (alternatives p s).
Proof. reflexivity. Qed.

Lemma alternatives_Opt (p : pattern) (s : jsstring) :
  alternatives (Opt p) s = alternatives p s ++ [([], s)].
Proof. reflexivity. Qed.

Lemma alternatives_Char (a : code_unit) (s : jsstring) :
  alternatives (Char a) s =
  match s with
  | c :: t => if (c =? a)%N then [([c], t)] else []
  | [] => []
  end.
Proof. reflexivity. Qed.

Lemma fraction_alternatives (s : jsstring) :
  hd_error (alternatives (Seq (Char 46%N) (Plus Digit)) s) =
  match s with
  | c :: r' =>
      if (c =? 46)%N then
        match fst (digitRun r') with
        | [] => None
        | _ :: _ => Some (c :: fst (digitRun r'), snd (digitRun r'))
        end
      else None
  | [] => None
  end.
Proof.
  rewrite alternatives_Seq, alternatives_Char.
  destruct s as [|c r']; [reflexivity|].
  destruct (c =? 46)%N; [|reflexivity].
  cbn [flat_map fst snd]. rewrite app_nil_r, hd_error_map, plus_digit.
  destruct (fst (digitRun r')) eqn:Hf; [reflexivity|].
  cbn. unfold extend. cbn. now rewrite Hf.
Qed.

(** At the start of a string the backtracking matcher finds what the
    scanner computes. *)
Lemma matchAt_numberPattern (s : jsstring) :
  matchAt numberPattern s = tokenAt s.
Proof.
  unfold matchAt, numberPattern, tokenAt.
  rewrite alternatives_Seq, hd_error_flat_map.
  pose proof (plus_digit s) as Hd.
  destruct (alternatives (Plus Digit) s) as [|a rest] eqn:Hit.
  - cbn in Hd. destruct (fst (digitRun s)); [reflexivity | discriminate].
  - cbn [hd_error] in Hd.
    destruct (fst (digitRun s)) as [|d0 d] eqn:Hfst; [discriminate|].
    injection Hd as Ha. subst a.
    rewrite hd_error_map, alternatives_Opt, hd_error_app, fraction_alternatives.
    rewrite Hfst.
    destruct (snd (digitRun s)) as [|c r'] eqn:Hsnd.
    { cbn. unfold extend. cbn. now rewrite app_nil_r. }
    destruct (c =? 46)%N.
    2:{ cbn. unfold extend. cbn. now rewrite app_nil_r. }
    destruct (fst (digitRun r')).
    { cbn. unfold extend. cbn. now rewrite app_nil_r. }
    reflexivity.
Qed.

Lemma tokenAt_nonempty (s m rest : jsstring) :
  tokenAt s = Some (m, rest) -> m <> [] /\ s = m ++ rest.
Proof.
  unfold tokenAt. pose proof (digitRun_app s) as Hs.
  destruct (fst (digitRun s)) as [|d0 d] eqn:Hfst; [discriminate|].
  destruct (snd (digitRun s)) as [|c r'] eqn:Hsnd.
  - intros [= <- <-]. split; [discriminate | symmetry; exact Hs].
  - pose proof (digitRun_app r') as Hr.
    destruct (c =? 46)%N.
    + destruct (fst (digitRun r')) as [|f0 f] eqn:Hf.
      * intros [= <- <-]. split; [discriminate | symmetry; exact Hs].
      * intros [= <- <-]. split; [discriminate|].
        rewrite <- Hs, <- Hr at 1. cbn. rewrite <- app_assoc. reflexivity.
    + intros [= <- <-]. split; [discriminate | symmetry; exact Hs].
Qed.

Lemma tokenAt_nondigit (c : code_unit) (s : jsstring) :
  is_digit c = false -> tokenAt (c :: s) = None.
Proof. intros H. unfold tokenAt. now rewrite (digitRun_nondigit c s H). Qed.

Lemma tokenAt_none (s : jsstring) :
  tokenAt s = None ->
  match s with c :: _ => is_digit c = false | [] => True end.
Proof.
  destruct s as [|c t]; [trivial|].
  unfold tokenAt. cbn [digitRun].
  destruct (is_digit c); [|reflexivity].
  cbn [fst snd]. destruct (snd (digitRun t)) as [|c' r']; [discriminate|].
  destruct (c' =? 46)%N; [|discriminate].
  destruct (fst (digitRun r')); discriminate.
Qed.

Lemma exec_numberPattern (s : jsstring) :
  exec numberPattern s =
  match tokenAt s with
  | Some r => Some r
  | None => match s with [] => None | _ :: t => exec numberPattern t end
  end.
Proof. destruct s; cbn [exec]; now rewrite matchAt_numberPattern. Qed.

Lemma matchLoop_skip (fuel : nat) (c : code_unit) (s : jsstring) :
  is_digit c = false ->
  matchLoop numberPattern (S fuel) (c :: s) = matchLoop numberPattern (S fuel) s.
Proof.
  intros H. cbn [matchLoop].
  rewrite (exec_numberPattern (c :: s)), (tokenAt_nondigit c s H). reflexivity.
Qed.

Lemma matchLoop_take (fuel : nat) (s m rest : jsstring) :
  tokenAt s = Some (m, rest) ->
  matchLoop numberPattern (S fuel) s = m :: matchLoop numberPattern fuel rest.
Proof.
  intros H. cbn [matchLoop]. rewrite exec_numberPattern, H.
  destruct (tokenAt_nonempty _ _ _ H) as [Hm _].
  destruct m; [contradiction | reflexivity].
Qed.

Lemma matchLoop_end (fuel : nat) : matchLoop numberPattern fuel [] = [].
Proof. destruct fuel; reflexivity. Qed.

Lemma extractNumbers_matchLoop (text : jsstring) :
  extractNumbers text = matchLoop numberPattern (S (length text)) text.
Proof.
  unfold extractNumbers, String_match.
  destruct (matchLoop numberPattern (S (length text)) text); reflexivity.
Qed.
End MatchAtStart.

(** ** [extractNumbers] against the specification's scan *)

Section ScanRefinement.
Import JS RegExp Scanner ProcessImage NumericToken.

Lemma is_digit_iff (c : code_unit) : is_digit c = true <-> digit c.
Proof.
  unfold is_digit, digit. rewrite andb_true_iff, !N.leb_le. tauto.
Qed.

Lemma digits_run (d : jsstring) :
  Forall digit d -> Forall (fun c => is_digit c = true) d.
Proof. apply Forall_impl. intros c. apply is_digit_iff. Qed.

Lemma run_digits (d : jsstring) :
  Forall (fun c => is_digit c = true) d -> Forall digit d.
Proof. apply Forall_impl. intros c. apply is_digit_iff. Qed.

Lemma point_not_digit : is_digit point = false.
Proof. reflexivity. Qed.

Lemma app_same_length {A} (a b x y : list A) :
  length a = length b -> a ++ x = b ++ y -> a = b /\ x = y.
Proof.
  revert b. induction a as [|h a IH]; intros [|k b] Hl He; try discriminate.
  - now split.
  - injection He as -> He. injection Hl as Hl.
    destruct (IH b Hl He) as [-> ->]. now split.
Qed.

(** A token starts with a digit. *)
Lemma token_starts_with_digit (t : jsstring) (c : code_unit) (s : jsstring) :
  matchesPattern t -> prefix t (c :: s) -> is_digit c = true.
Proof.
  intros Ht [rest Hs]. apply is_digit_iff.
  destruct Ht as [d [Hne Hall] | d f [Hne Hall] _];
    (destruct Hall as [|c' d Hc _]; [contradiction|]);
    cbn [app] in Hs; injection Hs as -> _; exact Hc.
Qed.

Lemma single_digit_token (c : code_unit) : is_digit c = true -> matchesPattern [c].
Proof.
  intros H. apply integer. split; [discriminate|].
  constructor; [now apply is_digit_iff | constructor].
Qed.

Lemma tokenAt_matches (s m rest : jsstring) :
  tokenAt s = Some (m, rest) -> matchesPattern m.
Proof.
  unfold tokenAt.
  pose proof (digitRun_digits s) as Hd.
  destruct (fst (digitRun s)) as [|d0 d] eqn:Hfst; [discriminate|].
  assert (Hds : digits (d0 :: d)) by (split; [discriminate | now apply run_digits]).
  destruct (snd (digitRun s)) as [|c r'].
  - intros [= <- _]. now apply integer.
  - destruct (c =? 46)%N eqn:Hc.
    + pose proof (digitRun_digits r') as Hf.
      destruct (fst (digitRun r')) as [|f0 f] eqn:Hfr.
      * intros [= <- _]. now apply integer.
      * intros [= <- _]. apply N.eqb_eq in Hc. subst c.
        apply (decimal (d0 :: d) (f0 :: f)); [assumption|].
        split; [discriminate | now apply run_digits].
    + intros [= <- _]. now apply integer.
Qed.

Lemma tokenAt_covers_run (s m rest : jsstring) :
  tokenAt s = Some (m, rest) -> length (fst (digitRun s)) <= length m.
Proof.
  unfold tokenAt.
  destruct (fst (digitRun s)) as [|d0 d]; [discriminate|].
  destruct (snd (digitRun s)) as [|c r'].
  - intros [= <- _]. lia.
  - destruct (c =? 46)%N.
    + destruct (fst (digitRun r')) as [|f0 f].
      * intros [= <- _]. lia.
      * intros [= <- _]. cbn [length]. rewrite length_app. lia.
    + intros [= <- _]. lia.
Qed.

Lemma tokenAt_decimal (d f r0 : jsstring) :
  digits d -> digits f ->
  tokenAt (d ++ point :: f ++ r0) =
  Some (d ++ point :: f ++ fst (digitRun r0), snd (digitRun r0)).
Proof.
  intros [Hd Hdd] [Hf Hff]. unfold tokenAt.
  rewrite (digitRun_prepend d _ (digits_run d Hdd)).
  rewrite (digitRun_nondigit point _ point_not_digit).
  cbn [fst snd]. rewrite app_nil_r.
  destruct d as [|d0 d]; [contradiction|].
  change (point =? 46)%N with true. cbv iota.
  rewrite (digitRun_prepend f _ (digits_run f Hff)). cbn [fst snd].
  destruct f as [|f0 f]; [contradiction|]. reflexivity.
Qed.

Lemma tokenAt_longest (s m rest t' : jsstring) :
  tokenAt s = Some (m, rest) ->
  matchesPattern t' -> prefix t' s -> length t' <= length m.
Proof.
  intros Hm Ht [r0 Hs]. subst s.
  destruct Ht as [d [Hne Hall] | d f Hd Hf].
  - apply tokenAt_covers_run in Hm.
    rewrite (digitRun_prepend d _ (digits_run d Hall)) in Hm.
    cbn [fst] in Hm. rewrite length_app in Hm. lia.
  - rewrite <- app_assoc in Hm. cbn [app] in Hm.
    rewrite (tokenAt_decimal d f r0 Hd Hf) in Hm.
    injection Hm as <- _. rewrite !length_app. cbn [length].
    rewrite length_app. lia.
Qed.

Lemma tokenAt_maximal (s m rest : jsstring) :
  tokenAt s = Some (m, rest) -> maximalAt m (m ++ rest).
Proof.
  intros H. destruct (tokenAt_nonempty _ _ _ H) as [_ Hs]. rewrite <- Hs.
  split; [now apply (tokenAt_matches s m rest)|].
  split; [now exists rest|].
  intros t' Ht Hp. now apply (tokenAt_longest s m rest t').
Qed.

Lemma token_nonempty (t : jsstring) : matchesPattern t -> t <> [].
Proof.
  intros [d [Hne _] | d f [Hne _] _]; [assumption|].
  destruct d; [contradiction | discriminate].
Qed.

Lemma maximalAt_tokenAt (t rest : jsstring) :
  maximalAt t (t ++ rest) -> tokenAt (t ++ rest) = Some (t, rest).
Proof.
  intros (Ht & Hp & Hmax).
  destruct (tokenAt (t ++ rest)) as [[m r]|] eqn:E.
  - pose proof (tokenAt_maximal _ _ _ E) as (Hm & _ & _).
    destruct (tokenAt_nonempty _ _ _ E) as [_ Hs].
    assert (Hlen : length t = length m).
    { apply Nat.le_antisymm.
      - now apply (tokenAt_longest (t ++ rest) m r t).
      - apply Hmax; [assumption|]. now exists r. }
    destruct (app_same_length t m rest r Hlen Hs) as [-> ->]. reflexivity.
  - apply tokenAt_none in E.
    destruct t as [|c t]; [now destruct (token_nonempty [] Ht)|].
    cbn [app] in E, Hp.
    rewrite (token_starts_with_digit (c :: t) c (t ++ rest) Ht Hp) in E.
    discriminate.
Qed.

Lemma matchLoop_tokens (fuel : nat) : forall s,
  length s < fuel -> tokensOf s (matchLoop numberPattern fuel s).
Proof.
  induction fuel as [|fuel IHfuel]; intros s; [lia|].
  induction s as [|c t IHs]; intros Hl.
  - rewrite matchLoop_end. constructor.
  - destruct (tokenAt (c :: t)) as [[m rest]|] eqn:E.
    + rewrite (matchLoop_take fuel _ _ _ E).
      destruct (tokenAt_nonempty _ _ _ E) as [Hm Hs].
      rewrite Hs. apply scan_take.
      * now apply (tokenAt_maximal (c :: t)).
      * apply IHfuel. apply (f_equal (@length _)) in Hs.
        rewrite length_app in Hs. cbn [length] in Hs, Hl.
        destruct m; [contradiction | cbn [length] in Hs; lia].
    + pose proof (tokenAt_none _ E) as Hc. cbn in Hc.
      rewrite (matchLoop_skip fuel c t Hc). apply scan_skip.
      * intros t' Ht Hp.
        rewrite (token_starts_with_digit t' c t Ht Hp) in Hc. discriminate.
      * apply IHs. cbn [length] in Hl. lia.
Qed.

Lemma tokens_matchLoop (s : jsstring) (ts : list jsstring) :
  tokensOf s ts ->
  forall fuel, length s < fuel -> matchLoop numberPattern fuel s = ts.
Proof.
  induction 1 as [|c s ts Hno _ IH|t rest ts Hmax _ IH]; intros fuel Hl.
  - apply matchLoop_end.
  - destruct fuel as [|fuel]; [lia|].
    assert (Hc : is_digit c = false).
    { destruct (is_digit c) eqn:Hc; [|reflexivity].
      exfalso. apply (Hno [c] (single_digit_token c Hc)). now exists s. }
    rewrite (matchLoop_skip fuel c s Hc). apply IH. cbn [length] in Hl. lia.
  - destruct fuel as [|fuel]; [lia|].
    rewrite (matchLoop_take fuel _ _ _ (maximalAt_tokenAt t rest Hmax)).
    f_equal. apply IH. rewrite length_app in Hl.
    destruct Hmax as (Ht & _). apply token_nonempty in Ht.
    destruct t; [contradiction | cbn [length] in Hl; lia].
Qed.

Lemma no_token_no_tokens (text : jsstring) :
  (forall t, matchesPattern t -> ~ occursIn t text) -> tokensOf text [].
Proof.
  induction text as [|c s IH]; intros Hno; [constructor|].
  apply scan_skip.
  - intros t Ht [rest Hp]. apply (Hno t Ht). exists [], rest. exact Hp.
  - apply IH. intros t Ht (before & after & Hs).
    apply (Hno t Ht). exists (c :: before), after. now rewrite Hs.
Qed.

(** C1.  For every text, [extractNumbers] returns a result, and it is
    exactly the sequence of tokens of the left-to-right scan: the
    maximal matches of "one or more digits, optionally a decimal point
    and one or more digits", in the order in which they start, none
    overlapping another; no other sequence is a scan of the text.  A
    text in which the pattern occurs nowhere, the empty text included,
    gives the empty sequence. *)
Theorem extractNumbers_scans_maximal_tokens (text : jsstring) :
  tokensOf text (extractNumbers text)
  /\ (forall ts, tokensOf text ts -> ts = extractNumbers text)
  /\ ((forall t, matchesPattern t -> ~ occursIn t text) -> extractNumbers text = [])
  /\ extractNumbers [] = [].
Proof.
  assert (Huniq : forall ts, tokensOf text ts -> ts = extractNumbers text).
  { intros ts Hts. rewrite extractNumbers_matchLoop. symmetry.
    apply (tokens_matchLoop text ts Hts). lia. }
  split; [|split; [exact Huniq | split]].
  - rewrite extractNumbers_matchLoop. apply matchLoop_tokens. lia.
  - intros Hno. symmetry. apply Huniq. now apply no_token_no_tokens.
  - reflexivity.
Qed.

Example extractNumbers_temperatures :
  extractNumbers (lit "Temp: 36.6 / 101.2F") = [lit "36.6"; lit "101.2"].
Proof. reflexivity. Qed.

Example extractNumbers_no_numbers :
  extractNumbers (lit "no numbers here") = [].
Proof. reflexivity. Qed.

Example extractNumbers_dots :
  extractNumbers (lit "1.2.3 12. .5 1..2 007")
  = [lit "1.2"; lit "3"; lit "12"; lit "5"; lit "1"; lit "2"; lit "007"].
Proof. reflexivity. Qed.
End ScanRefinement.

(** ** The pipeline orchestrator *)

Section PipelineFailures.
Import JS ProcessImage.

Variable manipulateAsync : jsstring -> Rect -> thrown + jsstring.
Variable recognize : jsstring -> thrown + jsstring.

Lemma cropImage_outcome (uri : jsstring) :
  cropImage manipulateAsync uri =
  match manipulateAsync uri CUT_AREA with
  | inl cause =>
      ([{| label := lit "Crop Error:"; arg := PrintedThrown cause |}],
       inl (Error (lit "Image cropping failed.")))
  | inr cropped => ([], inr cropped)
  end.
Proof.
  unfold cropImage, try_catch, await. cbn [fst snd].
  destruct (manipulateAsync uri CUT_AREA); reflexivity.
Qed.

Lemma recognizeText_outcome (uri : jsstring) :
  recognizeText recognize uri =
  match recognize uri with
  | inl cause =>
      ([{| label := lit "OCR Error:"; arg := PrintedThrown cause |}],
       inl (Error (lit "Text recognition failed.")))
  | inr text => ([], inr text)
  end.
Proof.
  unfold recognizeText, try_catch, await. cbn [fst snd].
  destruct (recognize uri); reflexivity.
Qed.

(** C5, as the code has it.  A run of the pipeline ends in one of three
    ways.  When the crop engine throws, the crop stage fails with the
    fixed message "Image cropping failed." and the pipeline with
    "Processing pipeline failed: Image cropping failed."; when the OCR
    engine throws, the pipeline fails with "Processing pipeline failed:
    Text recognition failed."; otherwise it returns the numbers of the
    recognised text.  The failure names the stage through that fixed
    message; what the engine threw goes to the console and into no
    failure. *)
Theorem pipeline_failure_names_stage_only (imageUri : jsstring) :
  processImageAndExtractNumbers manipulateAsync recognize imageUri =
  match manipulateAsync imageUri CUT_AREA with
  | inl cause =>
      ([{| label := lit "Crop Error:"; arg := PrintedThrown cause |};
        {| label := lit "Process Pipeline Error:";
           arg := PrintedString (lit "Image cropping failed.") |}],
       inl (Error (lit "Processing pipeline failed: Image cropping failed.")))
  | inr croppedUri =>
      match recognize croppedUri with
      | inl cause =>
          ([{| label := lit "OCR Error:"; arg := PrintedThrown cause |};
            {| label := lit "Process Pipeline Error:";
               arg := PrintedString (lit "Text recognition failed.") |}],
           inl (Error (lit "Processing pipeline failed: Text recognition failed.")))
      | inr ocrText => ([], inr (extractNumbers ocrText))
      end
  end
  /\ snd (cropImage manipulateAsync imageUri) =
     match manipulateAsync imageUri CUT_AREA with
     | inl _ => inl (Error (lit "Image cropping failed."))
     | inr croppedUri => inr croppedUri
     end.
Proof.
  split.
  - unfold processImageAndExtractNumbers.
    rewrite cropImage_outcome.
    destruct (manipulateAsync imageUri CUT_AREA) as [cause|croppedUri].
    + reflexivity.
    + unfold try_catch, await. cbn [fst snd].
      rewrite recognizeText_outcome.
      destruct (recognize croppedUri) as [cause|ocrText]; reflexivity.
  - rewrite cropImage_outcome.
    destruct (manipulateAsync imageUri CUT_AREA); reflexivity.
Qed.
End PipelineFailures.

Section PipelineExamples.
Import JS ProcessImage.

(** C5, as the claim states it, fails: the crop engine throws "disk
    full", and neither the failure of the crop stage nor the failure of
    the pipeline contains that message; a second cause gives the very
    same failure. *)
Lemma pipeline_failure_drops_cause :
  let failing (cause : jsstring) := fun (_ : jsstring) (_ : Rect) =>
    inl (Error cause) : thrown + jsstring in
  let ocr := fun (_ : jsstring) => inr (lit "36.6") : thrown + jsstring in
  snd (processImageAndExtractNumbers (failing (lit "disk full")) ocr (lit "photo.jpg"))
    = inl (Error (lit "Processing pipeline failed: Image cropping failed."))
  /\ includes (lit "Processing pipeline failed: Image cropping failed.")
              (lit "disk full") = false
  /\ snd (cropImage (failing (lit "disk full")) (lit "photo.jpg"))
    = inl (Error (lit "Image cropping failed."))
  /\ includes (lit "Image cropping failed.") (lit "disk full") = false
  /\ snd (processImageAndExtractNumbers (failing (lit "disk full")) ocr (lit "photo.jpg"))
     = snd (processImageAndExtractNumbers (failing (lit "not an image")) ocr (lit "photo.jpg")).
Proof. repeat split; reflexivity. Qed.
End PipelineExamples.

(** ** [String.prototype.trim] *)

Section Trim.
Import JS.

Lemma trimStart_split (s : jsstring) :
  exists l, s = l ++ trimStart s /\ whitespace l.
Proof.
  induction s as [|c t (l & Ht & Hl)].
  - exists []. split; [reflexivity | constructor].
  - cbn [trimStart]. destruct (is_white c) eqn:Hc.
    + exists (c :: l). split; [cbn; now rewrite <- Ht | now constructor].
    + exists []. split; [reflexivity | constructor].
Qed.

Lemma trimStart_head (s : jsstring) (c : code_unit) (t : jsstring) :
  trimStart s = c :: t -> is_white c = false.
Proof.
  induction s as [|a s IH]; cbn [trimStart]; [discriminate|].
  destruct (is_white a) eqn:Ha; [exact IH|].
  intros [= <- _]. exact Ha.
Qed.

Lemma whitespace_rev (l : jsstring) : whitespace l -> whitespace (rev l).
Proof.
  unfold whitespace. rewrite !Forall_forall. intros H c Hc.
  apply H. now apply in_rev.
Qed.

Lemma trimEnd_split (s : jsstring) :
  exists r, s = trimEnd s ++ r /\ whitespace r.
Proof.
  destruct (trimStart_split (rev s)) as (l & Hs & Hl).
  exists (rev l). split; [|now apply whitespace_rev].
  unfold trimEnd. rewrite <- rev_app_distr, <- Hs. now rewrite rev_involutive.
Qed.

Lemma trimEnd_last (s front : jsstring) (c : code_unit) :
  trimEnd s = front ++ [c] -> is_white c = false.
Proof.
  unfold trimEnd. intros H.
  apply (f_equal (@rev _)) in H. rewrite rev_involutive, rev_app_distr in H.
  cbn in H. now apply (trimStart_head (rev s) c (rev front)).
Qed.

(** [trim] removes white space at both ends and nothing else. *)
Lemma trim_split (s : jsstring) :
  exists l r, s = l ++ trim s ++ r /\ whitespace l /\ whitespace r.
Proof.
  destruct (trimStart_split s) as (l & Hs & Hl).
  destruct (trimEnd_split (trimStart s)) as (r & Ht & Hr).
  exists l, r. unfold trim. now rewrite <- Ht.
Qed.

Lemma trim_last (s front : jsstring) (c : code_unit) :
  trim s = front ++ [c] -> is_white c = false.
Proof. apply trimEnd_last. Qed.

Lemma trim_head (s : jsstring) (c : code_unit) (t : jsstring) :
  trim s = c :: t -> is_white c = false.
Proof.
  unfold trim. intros H.
  destruct (trimEnd_split (trimStart s)) as (r & Ht & _).
  rewrite H in Ht. cbn in Ht. now apply (trimStart_head s c (t ++ r)).
Qed.

Lemma trim_trimmed (s : jsstring) : trimmed (trim s).
Proof.
  split; [intros c t H; now apply (trim_head s c t)
         | intros f c H; now apply (trim_last s f c)].
Qed.

Lemma eqb_nil (s : jsstring) : JS.eqb s [] = true <-> s = [].
Proof.
  destruct s; cbn; split; intros H; try reflexivity; discriminate.
Qed.

Example trim_example : trim (lit " 10 ") = lit "10".
Proof. reflexivity. Qed.
End Trim.

(** ** What each view says about the state cells *)

Section Views.
Import JS ProcessImage NumberExtractorComponent.

Ltac view_cases s :=
  unfold renderContent;
  destruct s as [allN disp load modif in1 in2 start]; cbn;
  destruct load, disp, modif, start; cbn;
  destruct allN as [|? [|? ?]]; cbn.

Lemma view_Modifying p s numbers d1 d2 :
  renderContent p s = Modifying numbers d1 d2 ->
  hasImage p = true /\ loading s = false /\ displayedNumbers s = Some numbers
  /\ isModifyingNumbers s = true /\ numberInput1 s = d1 /\ numberInput2 s = d2.
Proof.
  destruct (hasImage p) eqn:Hp; view_cases s; rewrite ?Hp; cbn;
    try discriminate; intros [= -> -> ->]; repeat split; reflexivity.
Qed.

Lemma view_AwaitingDecision p s numbers :
  renderContent p s = AwaitingDecision numbers ->
  hasImage p = true /\ loading s = false /\ displayedNumbers s = Some numbers
  /\ isModifyingNumbers s = false /\ showStartButton s = false.
Proof.
  destruct (hasImage p) eqn:Hp; view_cases s; rewrite ?Hp; cbn;
    try discriminate; intros [= ->]; repeat split; reflexivity.
Qed.

Lemma view_Ready p s numbers :
  renderContent p s = Ready numbers ->
  hasImage p = true /\ loading s = false /\ displayedNumbers s = Some numbers
  /\ isModifyingNumbers s = false /\ showStartButton s = true.
Proof.
  destruct (hasImage p) eqn:Hp; view_cases s; rewrite ?Hp; cbn;
    try discriminate; intros [= ->]; repeat split; reflexivity.
Qed.

(** The views from the state cells. *)
Lemma render_with_pair p s numbers :
  hasImage p = true -> loading s = false -> displayedNumbers s = Some numbers ->
  renderContent p s =
  if isModifyingNumbers s then Modifying numbers (numberInput1 s) (numberInput2 s)
  else if showStartButton s then Ready numbers
  else AwaitingDecision numbers.
Proof.
  intros Hp Hl Hd. unfold renderContent. rewrite Hp, Hl, Hd. cbn.
  destruct (isModifyingNumbers s), (showStartButton s); reflexivity.
Qed.

Lemma render_without_pair p s :
  hasImage p = true -> loading s = false -> displayedNumbers s = None ->
  renderContent p s =
  match allExtractedNumbers s with
  | [] => ProcessPrompt false
  | [_] => InsufficientResults 1
  | _ :: _ :: _ => Blank
  end.
Proof.
  intros Hp Hl Hd. unfold renderContent. rewrite Hp, Hl, Hd. cbn.
  destruct (allExtractedNumbers s) as [|? [|? ?]]; reflexivity.
Qed.
End Views.

(** ** The review workflow *)

Section Review.
Import JS ProcessImage NumberExtractorComponent.

Lemma component_eta (c : Component) :
  {| props := props c; state := state c; inFlight := inFlight c |} = c.
Proof. now destruct c. Qed.

(** A control that is on the screen runs its handler. *)
Lemma step_User (c : Component) (ctl : Control) :
  offers (viewOf c) ctl = true ->
  ctl <> ProcessImageButton ->
  step c (User ctl) =
  Some ({| props := props c;
           state := fst (handlerOf (props c) ctl (state c));
           inFlight := inFlight c |},
        snd (handlerOf (props c) ctl (state c))).
Proof.
  intros Hon Hctl. unfold viewOf in Hon. cbn [step]. rewrite Hon.
  destruct (handlerOf (props c) ctl (state c)) as [s effs]. cbn [fst snd].
  destruct ctl; try contradiction; now rewrite app_nil_r.
Qed.

(** C6.  In Modifying, when a draft is empty once trimmed, Save Changes
    only shows the alert "Invalid Input": the component is left as it
    was, with the same props, the same state cells (both drafts and the
    pair under them) and the same suspended calls, so it still shows
    Modifying; no callback of the parent is called. *)
Theorem save_rejects_empty_draft
    (c : Component) (numbers : NumberPair) (d1 d2 : jsstring) :
  viewOf c = Modifying numbers d1 d2 ->
  trim d1 = [] \/ trim d2 = [] ->
  step c (User SaveChangesButton) =
  Some (c, [Alert (lit "Invalid Input") (lit "Numbers cannot be empty.")]).
Proof.
  intros Hv Hempty.
  rewrite step_User by (first [rewrite Hv; reflexivity | discriminate]).
  destruct (view_Modifying _ _ _ _ _ Hv) as (_ & _ & _ & _ & H1 & H2).
  cbn [handlerOf]. unfold handleSaveChanges. rewrite H1, H2.
  assert (Hb : JS.eqb (trim d1) [] || JS.eqb (trim d2) [] = true).
  { apply orb_true_iff. destruct Hempty as [H|H]; [left|right]; now apply eqb_nil. }
  rewrite Hb. cbn [perform fst snd]. now rewrite component_eta.
Qed.

Lemma save_rejects_empty_draft_witness :
  viewOf Sample.editingEmpty = Modifying Sample.readings [] (lit "100")
  /\ step Sample.editingEmpty (User SaveChangesButton) =
     Some (Sample.editingEmpty,
           [Alert (lit "Invalid Input") (lit "Numbers cannot be empty.")]).
Proof.
  split; [reflexivity|].
  apply (save_rejects_empty_draft Sample.editingEmpty Sample.readings [] (lit "100"));
    [reflexivity | left; reflexivity].
Defined.

(** C7.  In Modifying, when both drafts are non-empty once trimmed, Save
    Changes leads to Ready with the pair of the trimmed drafts, and shows
    and calls nothing.  A trimmed draft is the draft without the white
    space at its two ends. *)
Theorem save_commits_trimmed_drafts
    (c : Component) (numbers : NumberPair) (d1 d2 : jsstring) :
  viewOf c = Modifying numbers d1 d2 ->
  trim d1 <> [] -> trim d2 <> [] ->
  exists c',
    step c (User SaveChangesButton) = Some (c', [])
    /\ viewOf c' = Ready (trim d1, trim d2)
    /\ displayedNumbers (state c') = Some (trim d1, trim d2)
    /\ props c' = props c /\ inFlight c' = inFlight c
    /\ trimmed (trim d1) /\ trimmed (trim d2)
    /\ (exists l r, d1 = l ++ trim d1 ++ r /\ whitespace l /\ whitespace r)
    /\ (exists l r, d2 = l ++ trim d2 ++ r /\ whitespace l /\ whitespace r).
Proof.
  intros Hv Hn1 Hn2.
  rewrite step_User by (first [rewrite Hv; reflexivity | discriminate]).
  destruct (view_Modifying _ _ _ _ _ Hv) as (Hp & Hl & _ & _ & H1 & H2).
  cbn [handlerOf]. unfold handleSaveChanges. rewrite H1, H2.
  assert (Hb : JS.eqb (trim d1) [] || JS.eqb (trim d2) [] = false).
  { apply orb_false_iff. split; apply not_true_is_false; now rewrite eqb_nil. }
  rewrite Hb. eexists. split; [reflexivity|].
  split; [|split; [reflexivity|]].
  - unfold viewOf. cbn.
    rewrite (render_with_pair _ _ (trim d1, trim d2) Hp); [reflexivity | exact Hl | reflexivity].
  - repeat split; try reflexivity;
      try apply trim_trimmed; apply trim_split.
Qed.

Lemma save_commits_trimmed_drafts_witness :
  viewOf Sample.editingPadded = Modifying Sample.readings (lit " 10 ") (lit "20")
  /\ exists c',
       step Sample.editingPadded (User SaveChangesButton) = Some (c', [])
       /\ viewOf c' = Ready (lit "10", lit "20").
Proof.
  split; [reflexivity|].
  destruct (save_commits_trimmed_drafts Sample.editingPadded Sample.readings
              (lit " 10 ") (lit "20")) as (c' & Hs & Hv & _);
    [reflexivity | discriminate | discriminate |].
  exists c'. split; [exact Hs | exact Hv].
Defined.
End Review.

Section ModifyAndCancel.
Import JS ProcessImage NumberExtractorComponent.

(** Typing in the inputs changes the drafts and nothing else. *)
Lemma edits_keep_the_pair (numbers : NumberPair) (edits : list Control) :
  forallb isEdit edits = true ->
  forall c,
    hasImage (props c) = true -> loading (state c) = false ->
    displayedNumbers (state c) = Some numbers ->
    isModifyingNumbers (state c) = true ->
    exists c2,
      run c (map User edits) = Some (c2, [])
      /\ hasImage (props c2) = true /\ loading (state c2) = false
      /\ displayedNumbers (state c2) = Some numbers
      /\ isModifyingNumbers (state c2) = true
      /\ showStartButton (state c2) = showStartButton (state c)
      /\ allExtractedNumbers (state c2) = allExtractedNumbers (state c)
      /\ props c2 = props c /\ inFlight c2 = inFlight c.
Proof.
  induction edits as [|e edits IH]; intros Hall c Hp Hl Hd Hm.
  - exists c. cbn. now repeat split.
  - cbn [forallb] in Hall. apply andb_true_iff in Hall as [He Hall].
    assert (Hv : viewOf c = Modifying numbers (numberInput1 (state c)) (numberInput2 (state c))).
    { unfold viewOf. rewrite (render_with_pair _ _ numbers Hp Hl Hd). now rewrite Hm. }
    cbn [map run].
    rewrite step_User;
      [|rewrite Hv; destruct e; (reflexivity || discriminate)
       |destruct e; discriminate].
    destruct e as [| | | | | |text|text]; try discriminate; cbn [handlerOf];
      cbn [setNumberInput1 setNumberInput2 fst snd];
      match goal with
      | |- context [run ?c1 _] =>
          destruct (IH Hall c1 Hp Hl Hd Hm)
            as (c2 & Hr & Hp2 & Hl2 & Hd2 & Hm2 & Hs2 & Ha2 & Hpr2 & Hf2)
      end;
      exists c2; rewrite Hr; now repeat split.
Qed.

(** C8.  In AwaitingDecision(pair), Modify Numbers opens Modifying with
    the two drafts equal to the two numbers of the pair; whatever is then
    typed in the inputs, Cancel leads back to AwaitingDecision with the
    same pair. *)
Theorem modify_then_cancel_restores_pair
    (c : Component) (numbers : NumberPair) (edits : list Control) :
  viewOf c = AwaitingDecision numbers ->
  forallb isEdit edits = true ->
  exists c1 c2 c3,
    step c (User ModifyNumbersButton) = Some (c1, [])
    /\ viewOf c1 = Modifying numbers (fst numbers) (snd numbers)
    /\ run c1 (map User edits) = Some (c2, [])
    /\ step c2 (User CancelButton) = Some (c3, [])
    /\ viewOf c3 = AwaitingDecision numbers
    /\ displayedNumbers (state c3) = Some numbers
    /\ allExtractedNumbers (state c3) = allExtractedNumbers (state c)
    /\ props c3 = props c /\ inFlight c3 = inFlight c.
Proof.
  intros Hv Hedits.
  destruct (view_AwaitingDecision _ _ _ Hv) as (Hp & Hl & Hd & Hm & Hs).
  rewrite step_User by (first [rewrite Hv; reflexivity | discriminate]).
  cbn [handlerOf]. unfold handleModifyNumbers. rewrite Hd.
  match goal with
  | |- context [Some (?c1, _) = Some _] => set (c1' := c1)
  end.
  destruct (edits_keep_the_pair numbers edits Hedits c1' Hp Hl Hd eq_refl)
    as (c2 & Hr & Hp2 & Hl2 & Hd2 & Hm2 & Hs2 & Ha2 & Hpr2 & Hf2).
  assert (Hv2 : viewOf c2 = Modifying numbers (numberInput1 (state c2)) (numberInput2 (state c2))).
  { unfold viewOf. rewrite (render_with_pair _ _ numbers Hp2 Hl2 Hd2). now rewrite Hm2. }
  exists c1', c2. eexists.
  split; [reflexivity|].
  split.
  { unfold viewOf. rewrite (render_with_pair _ _ numbers); [reflexivity | exact Hp | exact Hl | exact Hd]. }
  split; [exact Hr|].
  rewrite step_User by (first [rewrite Hv2; reflexivity | discriminate]).
  split; [reflexivity|].
  split.
  { unfold viewOf. cbn.
    rewrite (render_with_pair _ _ numbers); cbn; try assumption.
    rewrite Hs2. reflexivity. }
  cbn. repeat split; assumption.
Qed.

Lemma modify_then_cancel_restores_pair_witness :
  viewOf Sample.awaiting = AwaitingDecision Sample.readings
  /\ exists c1 c2 c3,
       step Sample.awaiting (User ModifyNumbersButton) = Some (c1, [])
       /\ viewOf c1 = Modifying Sample.readings (lit "36.6") (lit "101.2")
       /\ run c1 [User (Input1 (lit "40")); User (Input2 [])] = Some (c2, [])
       /\ step c2 (User CancelButton) = Some (c3, [])
       /\ viewOf c3 = AwaitingDecision Sample.readings.
Proof.
  split; [reflexivity|].
  destruct (modify_then_cancel_restores_pair Sample.awaiting Sample.readings
              [Input1 (lit "40"); Input2 []])
    as (c1 & c2 & c3 & H1 & H2 & H3 & H4 & H5 & _);
    [reflexivity | reflexivity |].
  exists c1, c2, c3. repeat split; assumption.
Defined.

(** C10.  While there is no pair ([displayedNumbers] is null) the
    handlers of Modify Numbers, Accept & Continue and Start return
    without touching a state cell and without an alert or a call to the
    parent. *)
Theorem handlers_without_pair_do_nothing (s : State) :
  displayedNumbers s = None ->
  handleModifyNumbers s = (s, [])
  /\ handleAcceptNumbers s = (s, [])
  /\ handleStart s = (s, []).
Proof.
  intros H. unfold handleModifyNumbers, handleAcceptNumbers, handleStart.
  rewrite H. repeat split.
Qed.

Lemma handlers_without_pair_do_nothing_witness :
  displayedNumbers initialState = None
  /\ handleModifyNumbers initialState = (initialState, [])
  /\ handleAcceptNumbers initialState = (initialState, [])
  /\ handleStart initialState = (initialState, []).
Proof.
  split; [reflexivity|].
  apply (handlers_without_pair_do_nothing initialState). reflexivity.
Defined.
End ModifyAndCancel.

Section SettledCalls.
Import JS ProcessImage NumberExtractorComponent.

Lemma resume_state (closed : NumberExtractorProps)
    (outcome : thrown + list jsstring) (s : State) :
  fst (handleProcessImage_resume closed outcome s) = settledState outcome s.
Proof.
  unfold handleProcessImage_resume, settledState, notifyReset.
  destruct outcome as [error|numbers].
  - destruct (onProcessReset closed); reflexivity.
  - destruct (2 <=? length numbers), (onProcessReset closed); reflexivity.
Qed.

Lemma step_Settled (c : Component) (k : nat) (closed : NumberExtractorProps)
    (outcome : thrown + list jsstring) :
  nth_error (inFlight c) k = Some closed ->
  step c (Settled k outcome) =
  Some ({| props := props c;
           state := settledState outcome (state c);
           inFlight := removeNth k (inFlight c) |},
        snd (handleProcessImage_resume closed outcome (state c))).
Proof.
  intros Hk. cbn [step]. rewrite Hk.
  rewrite <- (resume_state closed outcome (state c)).
  now destruct (handleProcessImage_resume closed outcome (state c)).
Qed.

(** C2, as the code has it.  A suspended pipeline call carries no
    generation; when it settles, whether it is the newest call or one
    that a new image or a newer call has superseded, its result is
    written to the live state: [loading] becomes false,
    [displayedNumbers] becomes the first two numbers (or null, after a
    failure or fewer than two numbers) and, on success,
    [allExtractedNumbers] becomes the numbers.  The cells it never
    writes are [isModifyingNumbers], [numberInput1], [numberInput2] and
    [showStartButton]. *)
Theorem settled_call_writes_live_state
    (c : Component) (k : nat) (closed : NumberExtractorProps)
    (outcome : thrown + list jsstring) :
  nth_error (inFlight c) k = Some closed ->
  exists effs,
    step c (Settled k outcome) =
    Some ({| props := props c;
             state := settledState outcome (state c);
             inFlight := removeNth k (inFlight c) |}, effs).
Proof.
  intros Hk. eexists. now apply (step_Settled c k closed).
Qed.

(** C9, as the code has it.  When a pipeline call settles with fewer
    than two numbers, the alert "Extraction Failed" is shown and
    [onProcessReset] is called if the parent gave it.  With one number
    the component shows InsufficientResults(1), where no control is on
    the screen; with no number at all it shows the Process Image button
    again, and pressing it starts another call on the same image. *)
Theorem too_few_numbers
    (c : Component) (k : nat) (closed : NumberExtractorProps)
    (numbers : list jsstring) :
  hasImage (props c) = true ->
  nth_error (inFlight c) k = Some closed ->
  length numbers < 2 ->
  exists c',
    step c (Settled k (inr numbers)) =
    Some (c',
          Alert (lit "Extraction Failed")
                (lit "Could not find at least two numbers in the selected area.")
          :: (if onProcessReset closed then [CallOnProcessReset] else []))
    /\ state c' = settledState (inr numbers) (state c)
    /\ viewOf c' =
       match numbers with
       | [] => ProcessPrompt false
       | _ :: _ => InsufficientResults 1
       end
    /\ (numbers <> [] -> forall ctl, step c' (User ctl) = None)
    /\ (numbers = [] ->
        exists c'', step c' (User ProcessImageButton) = Some (c'', [])
                    /\ viewOf c'' = Processing
                    /\ inFlight c'' = inFlight c' ++ [props c]).
Proof.
  intros Hp Hk Hlen.
  rewrite (step_Settled c k closed (inr numbers) Hk).
  eexists. split.
  { f_equal. f_equal.
    unfold handleProcessImage_resume, notifyReset.
    destruct numbers as [|n0 [|n1 rest]]; cbn in Hlen; try lia;
      destruct (onProcessReset closed); reflexivity. }
  split; [reflexivity|].
  - assert (Hview : forall c', props c' = props c ->
              state c' = settledState (inr numbers) (state c) ->
              viewOf c' = match numbers with
                          | [] => ProcessPrompt false
                          | _ :: _ => InsufficientResults 1
                          end).
    { intros c' Hpr Hst. unfold viewOf. rewrite Hpr, Hst.
      rewrite render_without_pair; [|exact Hp|reflexivity|].
      - destruct numbers as [|n0 [|n1 rest]]; cbn in Hlen; try lia; reflexivity.
      - destruct numbers as [|n0 [|n1 rest]]; cbn in Hlen; try lia; reflexivity. }
    split; [now apply Hview|]. split.
    + intros Hne ctl. cbn [step].
      match goal with
      | |- context [renderContent (props ?c1) (state ?c1)] =>
          change (renderContent (props c1) (state c1)) with (viewOf c1);
          rewrite (Hview c1 eq_refl eq_refl)
      end.
      destruct numbers; [contradiction | now destruct ctl].
    + intros ->. cbn [step].
      match goal with
      | |- context [renderContent (props ?c1) (state ?c1)] =>
          change (renderContent (props c1) (state c1)) with (viewOf c1);
          rewrite (Hview c1 eq_refl eq_refl)
      end.
      cbn [offers negb handlerOf props state inFlight].
      unfold handleProcessImage_start. rewrite Hp. cbn.
      eexists. split; [reflexivity|]. split; [|reflexivity].
      unfold viewOf, renderContent. cbn. now rewrite Hp.
Qed.

Lemma too_few_numbers_witness :
  hasImage (props Sample.processing) = true
  /\ exists c',
       step Sample.processing (Settled 0 (inr [lit "36.6"])) =
       Some (c',
             [Alert (lit "Extraction Failed")
                (lit "Could not find at least two numbers in the selected area.");
              CallOnProcessReset])
       /\ viewOf c' = InsufficientResults 1
       /\ forall ctl, step c' (User ctl) = None.
Proof.
  split; [reflexivity|].
  destruct (too_few_numbers Sample.processing 0 Sample.photo [lit "36.6"])
    as (c' & Hs & _ & Hv & Hnone & _); [reflexivity | reflexivity | cbn; lia |].
  exists c'. split; [exact Hs|]. split; [exact Hv|].
  apply Hnone. discriminate.
Defined.

Lemma settled_call_writes_live_state_witness :
  nth_error (inFlight Sample.processing) 0 = Some Sample.photo
  /\ exists effs,
       step Sample.processing (Settled 0 (inr [lit "36.6"; lit "101.2"])) =
       Some ({| props := Sample.photo;
                state := settledState (inr [lit "36.6"; lit "101.2"])
                           (state Sample.processing);
                inFlight := [] |}, effs).
Proof.
  split; [reflexivity|].
  apply (settled_call_writes_live_state Sample.processing 0 Sample.photo
           (inr [lit "36.6"; lit "101.2"])).
  reflexivity.
Defined.
End SettledCalls.

(** Closed statements about sample components are settled by
    evaluation, one conjunct at a time. *)
Ltac evaluate :=
  repeat match goal with |- _ /\ _ => split end;
  intros; lazy; first [reflexivity | discriminate].

Section NewImageSupplied.
Import JS ProcessImage NumberExtractorComponent.

Lemma resetEffect_initial (p : NumberExtractorProps) (s : State) :
  resetEffect p s = (initialState, []).
Proof. unfold resetEffect. destruct (imageUri p); reflexivity. Qed.

(** C3, as the claim states it, fails: in Ready, a new image leaves the
    component at the Process Image button with [loading] false, not in
    Processing, and no pipeline call has been started. *)
Lemma new_image_does_not_start_processing :
  viewOf Sample.ready = Ready Sample.readings
  /\ exists c1,
       step Sample.ready (NewImage (Some (lit "file:///photo-2.jpg"))) = Some (c1, [])
       /\ viewOf c1 = ProcessPrompt false
       /\ viewOf c1 <> Processing
       /\ loading (state c1) = false
       /\ inFlight c1 = [].
Proof.
  split; [reflexivity|]. eexists. split; [lazy; reflexivity|]. evaluate.
Qed.

(** C2, as the claim states it, fails: a call is started on the first
    photo, a second photo is supplied and a call started on it, and then
    the first call settles.  Its numbers are written to the live state:
    the component leaves Processing and shows the numbers of the first
    photo while the call on the second is still suspended. *)
Lemma superseded_call_mutates_live_state :
  exists live after,
    run (mount Sample.photo)
        [User ProcessImageButton;
         NewImage (imageUri Sample.nextPhoto);
         User ProcessImageButton] = Some (live, [])
    /\ inFlight live = [Sample.photo; Sample.nextPhoto]
    /\ viewOf live = Processing
    /\ step live (Settled 0 (inr [lit "36.6"; lit "101.2"])) = Some (after, [])
    /\ state after <> state live
    /\ displayedNumbers (state after) = Some Sample.readings
    /\ viewOf after = AwaitingDecision Sample.readings
    /\ inFlight after = [Sample.nextPhoto].
Proof.
  eexists. eexists. split; [lazy; reflexivity|].
  split; [lazy; reflexivity|]. split; [lazy; reflexivity|].
  split; [lazy; reflexivity|]. evaluate.
Qed.

(** C9, as the claim states it, fails: a call that settles with no
    number at all leaves the component at the Process Image button, not
    in InsufficientResults, and the button starts another call on the
    same image. *)
Lemma no_number_allows_retry :
  exists c' c'' effs,
    step Sample.processing (Settled 0 (inr [])) = Some (c', effs)
    /\ viewOf c' = ProcessPrompt false
    /\ (forall count, viewOf c' <> InsufficientResults count)
    /\ step c' (User ProcessImageButton) = Some (c'', [])
    /\ viewOf c'' = Processing
    /\ inFlight c'' = [Sample.photo].
Proof.
  eexists. eexists. eexists. split; [lazy; reflexivity|].
  split; [lazy; reflexivity|]. split; [intros count; lazy; discriminate|].
  split; [lazy; reflexivity|]. evaluate.
Qed.
End NewImageSupplied.

Section ExtractionComplete.
Import JS ProcessImage NumberExtractorComponent.

Lemma completions_app (a b : list Effect) :
  completions (a ++ b) = completions a + completions b.
Proof. unfold completions. now rewrite filter_app, length_app. Qed.

Lemma resume_no_completion (closed : NumberExtractorProps)
    (outcome : thrown + list jsstring) (s : State) :
  completions (snd (handleProcessImage_resume closed outcome s)) = 0.
Proof.
  unfold handleProcessImage_resume, notifyReset.
  destruct outcome as [error|numbers].
  - destruct (onProcessReset closed); reflexivity.
  - destruct (2 <=? length numbers), (onProcessReset closed); reflexivity.
Qed.

(** Start is on the screen in Ready only. *)
Lemma start_offered_in_ready (v : View) :
  offers v StartButton = true -> exists numbers, v = Ready numbers.
Proof. destruct v; try discriminate. intros _. now eexists. Qed.

(** One event calls [onExtractionComplete] once if it is a press on
    Start, and not at all otherwise. *)
Lemma step_completions (c c' : Component) (e : Event) (effs : list Effect) :
  step c e = Some (c', effs) ->
  completions effs = if isStart e then 1 else 0.
Proof.
  destruct e as [uri|ctl|k outcome]; cbn [step isStart].
  - destruct (sameUri uri (imageUri (props c))); [now intros [= _ <-]|].
    rewrite resetEffect_initial. now intros [= _ <-].
  - destruct (offers (renderContent (props c) (state c)) ctl) eqn:Hon; [|discriminate].
    destruct (handlerOf (props c) ctl (state c)) as [s es] eqn:Hh.
    intros [= _ <-].
    destruct ctl; cbn [handlerOf] in Hh.
    + unfold handleProcessImage_start in Hh.
      destruct (negb (hasImage (props c))); injection Hh as _ <-; reflexivity.
    + unfold handleModifyNumbers in Hh.
      destruct (displayedNumbers (state c)); injection Hh as _ <-; reflexivity.
    + unfold handleAcceptNumbers in Hh.
      destruct (displayedNumbers (state c)); injection Hh as _ <-; reflexivity.
    + unfold handleSaveChanges in Hh.
      destruct (JS.eqb (trim (numberInput1 (state c))) []
                || JS.eqb (trim (numberInput2 (state c))) []);
        injection Hh as _ <-; reflexivity.
    + injection Hh as _ <-. reflexivity.
    + destruct (start_offered_in_ready _ Hon) as [numbers Hv].
      destruct (view_Ready _ _ _ Hv) as (_ & _ & Hd & _).
      unfold handleStart in Hh. rewrite Hd in Hh.
      injection Hh as _ <-. reflexivity.
    + injection Hh as _ <-. reflexivity.
    + injection Hh as _ <-. reflexivity.
  - destruct (nth_error (inFlight c) k) as [closed|]; [|discriminate].
    pose proof (resume_no_completion closed outcome (state c)) as Hn.
    destruct (handleProcessImage_resume closed outcome (state c)) as [s es].
    intros [= _ <-]. exact Hn.
Qed.

Lemma run_completions (es : list Event) : forall c c' effs,
  run c es = Some (c', effs) ->
  completions effs = length (filter isStart es).
Proof.
  induction es as [|e es IH]; intros c c' effs; cbn [run].
  - now intros [= _ <-].
  - destruct (step c e) as [[c1 effs1]|] eqn:Hs; [|discriminate].
    destruct (run c1 es) as [[c2 effs2]|] eqn:Hr; [|discriminate].
    intros [= _ <-]. rewrite completions_app.
    rewrite (step_completions c c1 e effs1 Hs), (IH c1 c2 effs2 Hr).
    cbn [filter]. destruct (isStart e); reflexivity.
Qed.

(** C4, as the code has it.  [onExtractionComplete] is called by a
    press on Start and by nothing else, once for each press: along
    every sequence of events the number of calls is the number of
    presses on Start.  Start is on the screen in Ready only; there a
    press calls [onExtractionComplete] once, with the pair shown, and
    leaves the component in Ready, where Start can be pressed again. *)
Theorem completion_called_once_per_start
    (c : Component) (es : list Event) (c' : Component) (effs : list Effect) :
  run c es = Some (c', effs) ->
  completions effs = length (filter isStart es)
  /\ (forall numbers, viewOf c' = Ready numbers ->
      step c' (User StartButton) = Some (c', [CallOnExtractionComplete numbers]))
  /\ (forall r, step c' (User StartButton) = Some r ->
      exists numbers, viewOf c' = Ready numbers).
Proof.
  intros Hrun. split; [now apply (run_completions es c c')|]. split.
  - intros numbers Hv.
    rewrite step_User by (first [rewrite Hv; reflexivity | discriminate]).
    destruct (view_Ready _ _ _ Hv) as (_ & _ & Hd & _).
    cbn [handlerOf]. unfold handleStart. rewrite Hd.
    cbn [perform fst snd]. now rewrite component_eta.
  - intros r. cbn [step]. fold (viewOf c').
    destruct (offers (viewOf c') StartButton) eqn:Hon; [|discriminate].
    intros _. now apply start_offered_in_ready.
Qed.

Lemma completion_called_once_per_start_witness :
  run (mount Sample.photo)
      [User ProcessImageButton;
       Settled 0 (snd (processImageAndExtractNumbers
                         Sample.cropper Sample.recognizer (lit "file:///photo-1.jpg")));
       User AcceptButton;
       User StartButton]
  = Some (Sample.ready, [CallOnExtractionComplete Sample.readings])
  /\ completions [CallOnExtractionComplete Sample.readings] = 1
  /\ step Sample.ready (User StartButton)
     = Some (Sample.ready, [CallOnExtractionComplete Sample.readings]).
Proof.
  assert (Hrun : run (mount Sample.photo)
            [User ProcessImageButton;
             Settled 0 (snd (processImageAndExtractNumbers
                               Sample.cropper Sample.recognizer (lit "file:///photo-1.jpg")));
             User AcceptButton;
             User StartButton]
          = Some (Sample.ready, [CallOnExtractionComplete Sample.readings]))
    by (lazy; reflexivity).
  split; [exact Hrun|].
  destruct (completion_called_once_per_start _ _ _ _ Hrun) as (Hcount & Hstart & _).
  split; [exact Hcount|].
  apply Hstart. reflexivity.
Defined.

(** C4, as the claim states it, fails: the image whose crop reads
    "36.6°C 101.2°C" is processed and accepted, the cycle reaches Ready
    and Start is pressed; the component stays in Ready, Start is pressed
    again, and [onExtractionComplete] has been called twice in this one
    cycle. *)
Lemma completion_called_twice :
  exists c' effs,
    run (mount Sample.photo)
        [User ProcessImageButton;
         Settled 0 (snd (processImageAndExtractNumbers
                           Sample.cropper Sample.recognizer (lit "file:///photo-1.jpg")));
         User AcceptButton;
         User StartButton;
         User StartButton] = Some (c', effs)
    /\ effs = [CallOnExtractionComplete Sample.readings;
               CallOnExtractionComplete Sample.readings]
    /\ completions effs = 2
    /\ completions effs <> 1.
Proof.
  eexists. eexists. split; [lazy; reflexivity|]. evaluate.
Qed.
End ExtractionComplete.

(** ** More on [extractNumbers] *)

Section ExtractedTokens.
Import JS RegExp Scanner ProcessImage NumericToken.

Lemma scan_of_text (text : jsstring) : tokensOf text (extractNumbers text).
Proof. rewrite extractNumbers_matchLoop. apply matchLoop_tokens. lia. Qed.

Lemma scan_is_extractNumbers (text : jsstring) (ts : list jsstring) :
  tokensOf text ts -> extractNumbers text = ts.
Proof.
  intros H. rewrite extractNumbers_matchLoop. apply (tokens_matchLoop text ts H). lia.
Qed.

Lemma no_token_at_nondigit (c : code_unit) (s : jsstring) :
  is_digit c = false -> forall t, matchesPattern t -> ~ prefix t (c :: s).
Proof.
  intros Hc t Ht Hp. rewrite (token_starts_with_digit t c s Ht Hp) in Hc. discriminate.
Qed.

Lemma skipped_is_nondigit (c : code_unit) (s : jsstring) :
  (forall t, matchesPattern t -> ~ prefix t (c :: s)) -> is_digit c = false.
Proof.
  intros Hno. destruct (is_digit c) eqn:Hc; [|reflexivity].
  exfalso. apply (Hno [c] (single_digit_token c Hc)). now exists s.
Qed.

Lemma occursIn_later (t s : jsstring) (skipped : jsstring) :
  occursIn t s -> occursIn t (skipped ++ s).
Proof.
  intros (before & after & ->). exists (skipped ++ before), after.
  now rewrite <- app_assoc.
Qed.

Lemma tokens_match_and_occur (s : jsstring) (ts : list jsstring) :
  tokensOf s ts -> Forall (fun t => matchesPattern t /\ occursIn t s) ts.
Proof.
  induction 1 as [|c s ts _ _ IH|t rest ts (Ht & _) _ IH].
  - constructor.
  - revert IH. apply Forall_impl. intros t [Ht Ho]. split; [exact Ht|].
    now apply (occursIn_later t s [c]).
  - constructor.
    + split; [exact Ht|]. now exists [], rest.
    + revert IH. apply Forall_impl. intros t' [Ht' Ho]. split; [exact Ht'|].
      now apply occursIn_later.
Qed.

(** X1.  Every string that [extractNumbers] returns is a number of the
    form digits or digits.digits, and it occurs in the text. *)
Theorem extractNumbers_returns_numbers_of_the_text (text : jsstring) :
  Forall (fun t => matchesPattern t /\ occursIn t text) (extractNumbers text).
Proof. apply tokens_match_and_occur, scan_of_text. Qed.

Lemma tokenAt_whole_token (t : jsstring) :
  matchesPattern t -> tokenAt t = Some (t, []).
Proof.
  intros [d [Hne Hall] | d f Hd Hf].
  - unfold tokenAt.
    pose proof (digitRun_prepend d [] (digits_run d Hall)) as Hr.
    rewrite !app_nil_r in Hr. cbn in Hr. rewrite Hr. cbn [fst snd].
    destruct d; [contradiction | reflexivity].
  - pose proof (tokenAt_decimal d f [] Hd Hf) as Ht.
    cbn [digitRun fst snd] in Ht. now rewrite !app_nil_r in Ht.
Qed.

(** X2.  A string that is itself a number of that form is extracted
    whole: [extractNumbers] returns it and nothing else. *)
Theorem extractNumbers_of_a_number (t : jsstring) :
  matchesPattern t -> extractNumbers t = [t].
Proof.
  intros Ht. rewrite extractNumbers_matchLoop.
  rewrite (matchLoop_take _ t t [] (tokenAt_whole_token t Ht)).
  now rewrite matchLoop_end.
Qed.

Lemma digits_by_evaluation (d : jsstring) :
  d <> [] -> forallb is_digit d = true -> digits d.
Proof.
  intros Hne Hall. split; [exact Hne|]. apply run_digits, Forall_forall.
  now apply forallb_forall.
Qed.

Lemma extractNumbers_of_a_number_witness :
  matchesPattern (lit "101.2") /\ extractNumbers (lit "101.2") = [lit "101.2"].
Proof.
  assert (H : matchesPattern (lit "101.2")).
  { apply (decimal (lit "101") (lit "2"));
      (apply digits_by_evaluation; [discriminate | reflexivity]). }
  split; [exact H | exact (extractNumbers_of_a_number (lit "101.2") H)].
Defined.

Lemma digitRun_before_separator (a : jsstring) (c : code_unit) (b : jsstring) :
  is_digit c = false ->
  digitRun (a ++ c :: b) = (fst (digitRun a), snd (digitRun a) ++ c :: b).
Proof.
  intros Hc. induction a as [|x a IH]; cbn [app digitRun].
  - now rewrite Hc.
  - destruct (is_digit x); [now rewrite IH | reflexivity].
Qed.

Lemma tokenAt_before_separator (a : jsstring) (c : code_unit) (b : jsstring) :
  is_digit c = false -> c <> point ->
  tokenAt (a ++ c :: b) =
  option_map (fun r => (fst r, snd r ++ c :: b)) (tokenAt a).
Proof.
  intros Hc Hp. unfold tokenAt.
  rewrite (digitRun_before_separator a c b Hc). cbn [fst snd].
  destruct (fst (digitRun a)) as [|d0 d]; [reflexivity|].
  destruct (snd (digitRun a)) as [|c' r']; cbn [app].
  - apply N.eqb_neq in Hp. unfold point in Hp. now rewrite Hp.
  - destruct (c' =? 46)%N; [|reflexivity].
    rewrite (digitRun_before_separator r' c b Hc). cbn [fst snd].
    destruct (fst (digitRun r')); reflexivity.
Qed.

Lemma tokens_before_separator (a : jsstring) (ta : list jsstring)
    (c : code_unit) (b : jsstring) (tb : list jsstring) :
  is_digit c = false -> c <> point ->
  tokensOf a ta -> tokensOf b tb -> tokensOf (a ++ c :: b) (ta ++ tb).
Proof.
  intros Hc Hp Ha Hb.
  induction Ha as [|x s ts Hno _ IH|t rest ts Hmax _ IH]; cbn [app].
  - apply scan_skip; [now apply no_token_at_nondigit | exact Hb].
  - apply scan_skip; [|exact IH].
    apply no_token_at_nondigit. now apply (skipped_is_nondigit x s).
  - rewrite <- app_assoc. apply scan_take; [|exact IH].
    apply (tokenAt_maximal ((t ++ rest) ++ c :: b)).
    rewrite (tokenAt_before_separator (t ++ rest) c b Hc Hp).
    now rewrite (maximalAt_tokenAt t rest Hmax).
Qed.

(** X3.  Around a separator that is neither a digit nor the decimal
    point, extraction works piece by piece: the numbers of [a], then the
    numbers of [b]. *)
Theorem extractNumbers_around_separator
    (a : jsstring) (c : code_unit) (b : jsstring) :
  is_digit c = false -> c <> point ->
  extractNumbers (a ++ c :: b) = extractNumbers a ++ extractNumbers b.
Proof.
  intros Hc Hp. apply scan_is_extractNumbers.
  apply tokens_before_separator; try assumption; apply scan_of_text.
Qed.

Lemma extractNumbers_around_separator_witness :
  is_digit 32%N = false /\ 32%N <> point
  /\ extractNumbers (lit "36.6" ++ 32%N :: lit "101.2")
     = extractNumbers (lit "36.6") ++ extractNumbers (lit "101.2").
Proof.
  split; [reflexivity|]. split; [discriminate|].
  apply (extractNumbers_around_separator (lit "36.6") 32%N (lit "101.2"));
    [reflexivity | discriminate].
Defined.

Lemma tokens_keep_digits (s : jsstring) (ts : list jsstring) :
  tokensOf s ts -> filter is_digit (concat ts) = filter is_digit s.
Proof.
  induction 1 as [|c s ts Hno _ IH|t rest ts _ _ IH].
  - reflexivity.
  - cbn [filter]. now rewrite (skipped_is_nondigit c s Hno).
  - cbn [concat]. now rewrite !filter_app, IH.
Qed.

(** X4.  No digit is lost and none is invented: the digits of the
    extracted numbers, read in order, are the digits of the text. *)
Theorem extractNumbers_keeps_every_digit (text : jsstring) :
  filter is_digit (concat (extractNumbers text)) = filter is_digit text.
Proof. apply tokens_keep_digits, scan_of_text. Qed.

Lemma no_digit_no_tokens (text : jsstring) :
  Forall (fun c => is_digit c = false) text -> tokensOf text [].
Proof.
  induction 1 as [|c s Hc _ IH]; [constructor|].
  apply scan_skip; [now apply no_token_at_nondigit | exact IH].
Qed.

(** X5.  [extractNumbers] returns the empty sequence exactly for the
    texts without a digit. *)
Theorem extractNumbers_empty_iff_no_digit (text : jsstring) :
  extractNumbers text = [] <-> Forall (fun c => is_digit c = false) text.
Proof.
  split.
  - intros He. pose proof (tokens_keep_digits text _ (scan_of_text text)) as Hk.
    rewrite He in Hk. cbn in Hk. symmetry in Hk.
    apply Forall_forall. intros c Hin.
    destruct (is_digit c) eqn:Hc; [|reflexivity].
    assert (Hf : In c (filter is_digit text)) by (apply filter_In; now split).
    rewrite Hk in Hf. contradiction.
  - intros H. apply scan_is_extractNumbers. now apply no_digit_no_tokens.
Qed.
End ExtractedTokens.

(** ** More on the pipeline *)

Section PipelineStages.
Import JS ProcessImage NumericToken.

(** X6.  The pipeline asks the crop engine for [CUT_AREA] of the image
    and nothing else, and the OCR engine for the cropped image and nothing
    else; when the crop fails the OCR engine is not asked at all.  Two
    pairs of engines that agree on these questions give the same run,
    console lines included. *)
Theorem pipeline_asks_crop_then_ocr
    (crop1 crop2 : jsstring -> Rect -> thrown + jsstring)
    (ocr1 ocr2 : jsstring -> thrown + jsstring) (imageUri : jsstring) :
  crop1 imageUri CUT_AREA = crop2 imageUri CUT_AREA ->
  (forall croppedUri, crop1 imageUri CUT_AREA = inr croppedUri ->
                      ocr1 croppedUri = ocr2 croppedUri) ->
  processImageAndExtractNumbers crop1 ocr1 imageUri
  = processImageAndExtractNumbers crop2 ocr2 imageUri.
Proof.
  intros Hcrop Hocr. unfold processImageAndExtractNumbers.
  rewrite !cropImage_outcome, <- Hcrop.
  destruct (crop1 imageUri CUT_AREA) as [cause|croppedUri]; [reflexivity|].
  unfold try_catch, await. cbn [fst snd].
  rewrite !recognizeText_outcome, <- (Hocr croppedUri eq_refl). reflexivity.
Qed.

Lemma pipeline_asks_crop_then_ocr_witness :
  processImageAndExtractNumbers Sample.cropper Sample.recognizer (lit "a.jpg")
  = processImageAndExtractNumbers
      (fun uri area => if JS.eqb uri (lit "a.jpg") then Sample.cropper uri area
                       else inl (NotAnError []))
      (fun uri => if JS.eqb uri (lit "a.jpg.cropped.png") then Sample.recognizer uri
                  else inl (NotAnError []))
      (lit "a.jpg").
Proof.
  apply pipeline_asks_crop_then_ocr; [reflexivity|].
  intros croppedUri [= <-]. reflexivity.
Defined.

(** X7.  When the pipeline returns, both stages have succeeded: the
    image was cropped, the cropped image was read, the result is the
    numbers of the text that was read, each of the form digits or
    digits.digits, and nothing was written to the console. *)
Theorem pipeline_result_comes_from_the_text
    (manipulateAsync : jsstring -> Rect -> thrown + jsstring)
    (recognize : jsstring -> thrown + jsstring)
    (imageUri : jsstring) (numbers : list jsstring) :
  snd (processImageAndExtractNumbers manipulateAsync recognize imageUri) = inr numbers ->
  (exists croppedUri ocrText,
      manipulateAsync imageUri CUT_AREA = inr croppedUri
      /\ recognize croppedUri = inr ocrText
      /\ numbers = extractNumbers ocrText)
  /\ Forall matchesPattern numbers
  /\ fst (processImageAndExtractNumbers manipulateAsync recognize imageUri) = [].
Proof.
  unfold processImageAndExtractNumbers. rewrite cropImage_outcome.
  destruct (manipulateAsync imageUri CUT_AREA) as [cause|croppedUri] eqn:Hcrop;
    [discriminate|].
  unfold try_catch, await. cbn [fst snd]. rewrite recognizeText_outcome.
  destruct (recognize croppedUri) as [cause|ocrText] eqn:Hocr; [discriminate|].
  cbn. intros [= <-]. split; [|split; [|reflexivity]].
  - exists croppedUri, ocrText. now repeat split.
  - pose proof (tokens_match_and_occur ocrText _ (scan_of_text ocrText)) as H.
    revert H. apply Forall_impl. now intros t [Ht _].
Qed.

Lemma pipeline_result_comes_from_the_text_witness :
  snd (processImageAndExtractNumbers Sample.cropper Sample.recognizer (lit "a.jpg"))
    = inr [lit "36.6"; lit "101.2"]
  /\ Forall matchesPattern [lit "36.6"; lit "101.2"].
Proof.
  assert (H : snd (processImageAndExtractNumbers Sample.cropper Sample.recognizer
                     (lit "a.jpg")) = inr [lit "36.6"; lit "101.2"])
    by (lazy; reflexivity).
  split; [exact H|].
  exact (proj1 (proj2 (pipeline_result_comes_from_the_text _ _ _ _ H))).
Defined.
End PipelineStages.

(** ** More on the review workflow *)

Section FromPipelineToReview.
Import JS ProcessImage NumericToken NumberExtractorComponent.

Lemma view_ProcessPrompt p s disabled :
  renderContent p s = ProcessPrompt disabled ->
  disabled = false /\ hasImage p = true /\ loading s = false
  /\ displayedNumbers s = None /\ allExtractedNumbers s = [].
Proof.
  unfold renderContent.
  destruct (hasImage p) eqn:Hp; cbn; [|discriminate].
  destruct s as [allN disp load modif in1 in2 start]; cbn.
  destruct load; [discriminate|]. cbn.
  destruct disp as [numbers|]; cbn.
  - destruct modif, start; discriminate.
  - destruct allN as [|n0 [|n1 rest]]; cbn; try discriminate.
    intros [= <-]. now repeat split.
Qed.

Lemma step_Process (c : Component) :
  viewOf c = ProcessPrompt false ->
  step c (User ProcessImageButton) =
  Some ({| props := props c;
           state := {| allExtractedNumbers := [];
                       displayedNumbers := None;
                       loading := true;
                       isModifyingNumbers := false;
                       numberInput1 := numberInput1 (state c);
                       numberInput2 := numberInput2 (state c);
                       showStartButton := false |};
           inFlight := inFlight c ++ [props c] |}, []).
Proof.
  intros Hv. destruct (view_ProcessPrompt _ _ _ Hv) as (_ & Hp & _).
  unfold viewOf in Hv. cbn [step]. rewrite Hv. cbn [offers negb handlerOf].
  unfold handleProcessImage_start. rewrite Hp. reflexivity.
Qed.

Lemma last_in_flight (c : Component) (closed : NumberExtractorProps) :
  nth_error (inFlight c ++ [closed]) (length (inFlight c)) = Some closed.
Proof. rewrite nth_error_app2 by lia. now rewrite Nat.sub_diag. Qed.

(** X8.  From the Process Image button to the two numbers on the screen:
    when the crop and the reading of the image succeed and the scan of the
    text that was read starts with the numbers [n0] and [n1], pressing
    Process Image shows the loader, and when the pipeline call settles the
    component shows AwaitingDecision with [n0] and [n1], without an alert
    and without a call to the parent. *)
Theorem processing_shows_first_two_numbers
    (manipulateAsync : jsstring -> Rect -> thrown + jsstring)
    (recognize : jsstring -> thrown + jsstring)
    (c : Component) (uri croppedUri ocrText n0 n1 : jsstring)
    (others : list jsstring) :
  viewOf c = ProcessPrompt false ->
  imageUri (props c) = Some uri ->
  manipulateAsync uri CUT_AREA = inr croppedUri ->
  recognize croppedUri = inr ocrText ->
  tokensOf ocrText (n0 :: n1 :: others) ->
  exists c1 c2,
    step c (User ProcessImageButton) = Some (c1, [])
    /\ viewOf c1 = Processing
    /\ step c1 (Settled (length (inFlight c))
                  (snd (processImageAndExtractNumbers manipulateAsync recognize uri)))
       = Some (c2, [])
    /\ viewOf c2 = AwaitingDecision (n0, n1)
    /\ allExtractedNumbers (state c2) = n0 :: n1 :: others.
Proof.
  intros Hv _ Hcrop Hocr Hscan.
  destruct (view_ProcessPrompt _ _ _ Hv) as (_ & Hp & _).
  assert (Hrun : snd (processImageAndExtractNumbers manipulateAsync recognize uri)
                 = inr (n0 :: n1 :: others)).
  { unfold processImageAndExtractNumbers. rewrite cropImage_outcome, Hcrop.
    unfold try_catch, await. cbn [fst snd]. rewrite recognizeText_outcome, Hocr.
    cbn. now rewrite (scan_is_extractNumbers ocrText _ Hscan). }
  rewrite Hrun, (step_Process c Hv).
  eexists. eexists. split; [reflexivity|]. split.
  { unfold viewOf, renderContent. cbn [props state loading]. now rewrite Hp. }
  split.
  { erewrite step_Settled by (cbn [inFlight]; apply last_in_flight).
    reflexivity. }
  split; [|reflexivity].
  unfold viewOf. cbn [props state].
  rewrite render_with_pair with (numbers := (n0, n1));
    [reflexivity | exact Hp | reflexivity | reflexivity].
Qed.

Lemma processing_shows_first_two_numbers_witness :
  viewOf (mount Sample.photo) = ProcessPrompt false
  /\ tokensOf Sample.ocrText [lit "36.6"; lit "101.2"]
  /\ exists c1 c2,
       step (mount Sample.photo) (User ProcessImageButton) = Some (c1, [])
       /\ viewOf c1 = Processing
       /\ step c1 (Settled 0
                     (snd (processImageAndExtractNumbers Sample.cropper Sample.recognizer
                             (lit "file:///photo-1.jpg"))))
          = Some (c2, [])
       /\ viewOf c2 = AwaitingDecision Sample.readings.
Proof.
  assert (Hscan : tokensOf Sample.ocrText [lit "36.6"; lit "101.2"])
    by exact (scan_of_text Sample.ocrText).
  split; [reflexivity|]. split; [exact Hscan|].
  destruct (processing_shows_first_two_numbers Sample.cropper Sample.recognizer
              (mount Sample.photo) (lit "file:///photo-1.jpg")
              (lit "file:///photo-1.jpg.cropped.png") Sample.ocrText
              (lit "36.6") (lit "101.2") [])
    as (c1 & c2 & H1 & H2 & H3 & H4 & _);
    [reflexivity | reflexivity | reflexivity | reflexivity | exact Hscan |].
  exists c1, c2. split; [exact H1|]. split; [exact H2|].
  split; [exact H3 | exact H4].
Defined.

(** X9.  What the user is told when a stage fails: whatever the crop or
    the OCR engine threw, the settled call writes one line to the console
    and alerts "Processing Error" with one of two messages, the one that
    names the failed stage; then [onProcessReset] is called if it was
    given.  The pair and [loading] are cleared and the other cells are
    kept, so a component that was at the loader with no number stored is
    back at the Process Image button. *)
Theorem failed_stage_is_reported
    (manipulateAsync : jsstring -> Rect -> thrown + jsstring)
    (recognize : jsstring -> thrown + jsstring)
    (c : Component) (k : nat) (closed : NumberExtractorProps)
    (uri : jsstring) (failure : thrown) :
  nth_error (inFlight c) k = Some closed ->
  imageUri closed = Some uri ->
  snd (processImageAndExtractNumbers manipulateAsync recognize uri) = inl failure ->
  exists c' message,
    step c (Settled k (snd (processImageAndExtractNumbers manipulateAsync recognize uri)))
    = Some (c',
            ConsoleError {| label := lit "Error processing image:";
                            arg := PrintedThrown failure |}
            :: Alert (lit "Processing Error") message
            :: (if onProcessReset closed then [CallOnProcessReset] else []))
    /\ ((exists cause, manipulateAsync uri CUT_AREA = inl cause)
        /\ message = lit "An error occurred: Processing pipeline failed: Image cropping failed."
        \/ (exists croppedUri cause,
              manipulateAsync uri CUT_AREA = inr croppedUri
              /\ recognize croppedUri = inl cause)
           /\ message = lit "An error occurred: Processing pipeline failed: Text recognition failed.")
    /\ state c' = settledState (inl failure) (state c)
    /\ (hasImage (props c) = true -> allExtractedNumbers (state c) = [] ->
        viewOf c' = ProcessPrompt false).
Proof.
  intros Hk _ Hfail. rewrite Hfail, (step_Settled c k closed (inl failure) Hk).
  eexists. exists (lit "An error occurred: " ++ message_of failure).
  split.
  { f_equal. f_equal. unfold handleProcessImage_resume, notifyReset.
    destruct (onProcessReset closed); reflexivity. }
  split.
  { revert Hfail. unfold processImageAndExtractNumbers. rewrite cropImage_outcome.
    destruct (manipulateAsync uri CUT_AREA) as [cause|croppedUri] eqn:Hcrop.
    - cbn. intros [= <-]. left. split; [now exists cause | reflexivity].
    - unfold try_catch, await. cbn [fst snd]. rewrite recognizeText_outcome.
      destruct (recognize croppedUri) as [cause|ocrText] eqn:Hocr; [|discriminate].
      cbn. intros [= <-]. right. split; [now exists croppedUri, cause | reflexivity]. }
  split; [reflexivity|].
  intros Hp Hall. unfold viewOf. cbn [props state].
  rewrite render_without_pair; [cbn; now rewrite Hall | exact Hp | reflexivity | reflexivity].
Qed.

Lemma failed_stage_is_reported_witness :
  let broken := fun (_ : jsstring) (_ : Rect) =>
    inl (Error (lit "disk full")) : thrown + jsstring in
  exists c',
    step Sample.processing
         (Settled 0 (snd (processImageAndExtractNumbers broken Sample.recognizer
                            (lit "file:///photo-1.jpg"))))
    = Some (c',
            [ConsoleError {| label := lit "Error processing image:";
                             arg := PrintedThrown
                                      (Error (lit "Processing pipeline failed: Image cropping failed.")) |};
             Alert (lit "Processing Error")
                   (lit "An error occurred: Processing pipeline failed: Image cropping failed.");
             CallOnProcessReset])
    /\ viewOf c' = ProcessPrompt false.
Proof.
  intros broken.
  destruct (failed_stage_is_reported broken Sample.recognizer Sample.processing 0
              Sample.photo (lit "file:///photo-1.jpg")
              (Error (lit "Processing pipeline failed: Image cropping failed.")))
    as (c' & message & Hs & [[_ Hm]|[(croppedUri & cause & Hc & _) _]] & _ & Hv);
    [reflexivity | reflexivity | reflexivity | | discriminate Hc].
  exists c'. split; [now rewrite Hs, Hm | now apply Hv].
Defined.
End FromPipelineToReview.

Section AcceptAndReady.
Import JS RegExp ProcessImage NumericToken NumberExtractorComponent.

(** X10.  In AwaitingDecision(pair), Accept & Continue leads to Ready
    with the same pair; it touches neither the numbers nor the drafts, and
    shows and calls nothing. *)
Theorem accept_makes_ready (c : Component) (numbers : NumberPair) :
  viewOf c = AwaitingDecision numbers ->
  exists c',
    step c (User AcceptButton) = Some (c', [])
    /\ viewOf c' = Ready numbers
    /\ allExtractedNumbers (state c') = allExtractedNumbers (state c)
    /\ numberInput1 (state c') = numberInput1 (state c)
    /\ numberInput2 (state c') = numberInput2 (state c)
    /\ props c' = props c /\ inFlight c' = inFlight c.
Proof.
  intros Hv. destruct (view_AwaitingDecision _ _ _ Hv) as (Hp & Hl & Hd & _).
  rewrite step_User by (first [rewrite Hv; reflexivity | discriminate]).
  cbn [handlerOf]. unfold handleAcceptNumbers. rewrite Hd.
  eexists. split; [reflexivity|]. split; [|now repeat split].
  unfold viewOf. cbn [props state fst snd].
  rewrite render_with_pair with (numbers := numbers);
    [reflexivity | exact Hp | exact Hl | exact Hd].
Qed.

Lemma accept_makes_ready_witness :
  viewOf Sample.awaiting = AwaitingDecision Sample.readings
  /\ exists c', step Sample.awaiting (User AcceptButton) = Some (c', [])
                /\ viewOf c' = Ready Sample.readings.
Proof.
  split; [reflexivity|].
  destruct (accept_makes_ready Sample.awaiting Sample.readings)
    as (c' & Hs & Hv & _); [reflexivity|].
  exists c'. split; [exact Hs | exact Hv].
Defined.

(** X11.  Ready is final for the user: the only control that can be
    operated is Start, and it leaves the component as it is.  So whatever
    the user does in Ready is a number of presses on Start, each handing
    the same pair to [onExtractionComplete]; the pair can no longer be
    modified. *)
Theorem ready_only_starts
    (c : Component) (numbers : NumberPair) (controls : list Control)
    (c' : Component) (effs : list Effect) :
  viewOf c = Ready numbers ->
  run c (map User controls) = Some (c', effs) ->
  c' = c
  /\ controls = repeat StartButton (length controls)
  /\ effs = repeat (CallOnExtractionComplete numbers) (length controls).
Proof.
  intros Hv. revert c' effs.
  induction controls as [|ctl controls IH]; intros c' effs; cbn [map run].
  - intros [= <- <-]. now repeat split.
  - destruct (step c (User ctl)) as [[c1 effs1]|] eqn:Hs; [|discriminate].
    assert (Hctl : ctl = StartButton).
    { cbn [step] in Hs. fold (viewOf c) in Hs. rewrite Hv in Hs.
      destruct ctl; cbn in Hs; try discriminate. reflexivity. }
    subst ctl.
    destruct (view_Ready _ _ _ Hv) as (_ & _ & Hd & _).
    rewrite step_User in Hs by (first [rewrite Hv; reflexivity | discriminate]).
    cbn [handlerOf] in Hs. unfold handleStart in Hs. rewrite Hd in Hs.
    cbn [perform fst snd] in Hs. rewrite component_eta in Hs.
    injection Hs as <- <-.
    destruct (run c (map User controls)) as [[c2 effs2]|] eqn:Hr; [|discriminate].
    intros [= <- <-]. destruct (IH c2 effs2 eq_refl) as (-> & Hc & He).
    cbn [length repeat app]. split; [reflexivity|]. split; now f_equal.
Qed.

Lemma ready_only_starts_witness :
  viewOf Sample.ready = Ready Sample.readings
  /\ run Sample.ready (map User [StartButton; StartButton])
     = Some (Sample.ready, repeat (CallOnExtractionComplete Sample.readings) 2).
Proof.
  split; [reflexivity|].
  destruct (run Sample.ready (map User [StartButton; StartButton]))
    as [[c' effs]|] eqn:Hr; [|lazy in Hr; discriminate Hr].
  destruct (ready_only_starts Sample.ready Sample.readings
              [StartButton; StartButton] c' effs eq_refl Hr) as (-> & _ & ->).
  reflexivity.
Defined.

Lemma digit_is_not_white (c : code_unit) : is_digit c = true -> is_white c = false.
Proof.
  unfold is_digit, is_white. rewrite andb_true_iff, !N.leb_le. intros [Hlo Hhi].
  repeat match goal with
         | |- context [(?a <=? ?b)%N] =>
             let H := fresh in
             destruct (N.leb_spec a b) as [H|H]; try lia
         | |- context [(?a =? ?b)%N] =>
             let H := fresh in
             destruct (N.eqb_spec a b) as [H|H]; try lia
         end; reflexivity.
Qed.

Lemma token_first_and_last (t : jsstring) :
  matchesPattern t ->
  (exists c rest, t = c :: rest /\ is_digit c = true)
  /\ (exists front c, t = front ++ [c] /\ is_digit c = true).
Proof.
  assert (Hlast : forall d, digits d ->
            exists front c, d = front ++ [c] /\ is_digit c = true).
  { intros d [Hne Hall]. destruct (exists_last Hne) as (front & c & ->).
    exists front, c. split; [reflexivity|].
    apply is_digit_iff. rewrite Forall_app in Hall. destruct Hall as [_ Hc].
    now inversion Hc. }
  assert (Hfirst : forall d, digits d ->
            exists c rest, d = c :: rest /\ is_digit c = true).
  { intros d [Hne Hall]. destruct Hall as [|c d Hc _]; [contradiction|].
    exists c, d. split; [reflexivity | now apply is_digit_iff]. }
  intros [d Hd | d f Hd Hf]; split.
  - now apply Hfirst.
  - now apply Hlast.
  - destruct (Hfirst d Hd) as (c & rest & -> & Hc).
    exists c, (rest ++ point :: f). now split.
  - destruct (Hlast f Hf) as (front & c & -> & Hc).
    exists (d ++ point :: front), c. split; [|exact Hc].
    now rewrite <- app_assoc.
Qed.

Lemma trimStart_keeps (c : code_unit) (rest : jsstring) :
  is_white c = false -> trimStart (c :: rest) = c :: rest.
Proof. intros H. cbn [trimStart]. now rewrite H. Qed.

(** An extracted number has no white space to trim. *)
Lemma trim_number (t : jsstring) : matchesPattern t -> trim t = t.
Proof.
  intros Ht. destruct (token_first_and_last t Ht)
    as [(c & rest & Hfirst & Hc) (front & c' & Hlast & Hc')].
  unfold trim, trimEnd.
  rewrite Hfirst, (trimStart_keeps c rest (digit_is_not_white c Hc)), <- Hfirst.
  rewrite Hlast at 1. rewrite rev_app_distr. cbn [rev app].
  rewrite (trimStart_keeps c' (rev front) (digit_is_not_white c' Hc')).
  change (c' :: rev front) with (rev [c'] ++ rev front).
  now rewrite <- rev_app_distr, rev_involutive.
Qed.

(** X12.  Opening the editor and saving without typing changes nothing
    of an extracted pair: from AwaitingDecision with two numbers of the
    form digits or digits.digits, Modify Numbers followed by Save Changes
    leads to Ready with the same two numbers, and no alert. *)
Theorem modify_then_save_keeps_extracted_pair
    (c : Component) (n0 n1 : jsstring) :
  viewOf c = AwaitingDecision (n0, n1) ->
  matchesPattern n0 -> matchesPattern n1 ->
  exists c1 c2,
    step c (User ModifyNumbersButton) = Some (c1, [])
    /\ viewOf c1 = Modifying (n0, n1) n0 n1
    /\ step c1 (User SaveChangesButton) = Some (c2, [])
    /\ viewOf c2 = Ready (n0, n1).
Proof.
  intros Hv H0 H1.
  destruct (view_AwaitingDecision _ _ _ Hv) as (Hp & Hl & Hd & Hm & Hs).
  rewrite step_User by (first [rewrite Hv; reflexivity | discriminate]).
  cbn [handlerOf]. unfold handleModifyNumbers. rewrite Hd.
  eexists. eexists. split; [reflexivity|].
  assert (Hv1 : forall c1,
            props c1 = props c -> loading (state c1) = false ->
            displayedNumbers (state c1) = Some (n0, n1) ->
            isModifyingNumbers (state c1) = true ->
            numberInput1 (state c1) = n0 -> numberInput2 (state c1) = n1 ->
            viewOf c1 = Modifying (n0, n1) n0 n1).
  { intros c1 Hpr Hl1 Hd1 Hm1 Hi1 Hi2. unfold viewOf.
    rewrite render_with_pair with (numbers := (n0, n1)); try assumption.
    - now rewrite Hm1, Hi1, Hi2.
    - now rewrite Hpr. }
  match goal with
  | |- viewOf ?c1 = _ /\ _ =>
      assert (Hview : viewOf c1 = Modifying (n0, n1) n0 n1)
        by (apply Hv1; first [reflexivity | assumption])
  end.
  split; [exact Hview|].
  rewrite step_User by (first [rewrite Hview; reflexivity | discriminate]).
  cbn [handlerOf props state fst snd]. unfold handleSaveChanges.
  cbn [numberInput1 numberInput2 fst snd setIsModifyingNumbers setNumberInput1
       setNumberInput2 setShowStartButton andThen].
  cbn [numberInput1 numberInput2]. rewrite (trim_number n0 H0), (trim_number n1 H1).
  assert (Hb : JS.eqb n0 [] || JS.eqb n1 [] = false).
  { apply orb_false_iff. split; apply not_true_is_false; rewrite eqb_nil;
      now apply token_nonempty. }
  rewrite Hb. split; [reflexivity|].
  unfold viewOf. cbn [props state fst snd].
  rewrite render_with_pair with (numbers := (n0, n1));
    [reflexivity | exact Hp | exact Hl | reflexivity].
Qed.

Lemma modify_then_save_keeps_extracted_pair_witness :
  viewOf Sample.awaiting = AwaitingDecision (lit "36.6", lit "101.2")
  /\ exists c1 c2,
       step Sample.awaiting (User ModifyNumbersButton) = Some (c1, [])
       /\ step c1 (User SaveChangesButton) = Some (c2, [])
       /\ viewOf c2 = Ready (lit "36.6", lit "101.2").
Proof.
  split; [reflexivity|].
  destruct (modify_then_save_keeps_extracted_pair Sample.awaiting (lit "36.6") (lit "101.2"))
    as (c1 & c2 & H1 & _ & H2 & H3).
  - reflexivity.
  - apply (decimal (lit "36") (lit "6"));
      (apply digits_by_evaluation; [discriminate | reflexivity]).
  - apply (decimal (lit "101") (lit "2"));
      (apply digits_by_evaluation; [discriminate | reflexivity]).
  - exists c1, c2. split; [exact H1|]. split; [exact H2 | exact H3].
Defined.
End AcceptAndReady.

(** ** Along every sequence of events *)

Section AlongRuns.
Import JS ProcessImage NumberExtractorComponent Traces.

Lemma resets_app (a b : list Effect) : resets (a ++ b) = resets a + resets b.
Proof. unfold resets. now rewrite filter_app, length_app. Qed.

Lemma Forall_removeNth {A} (P : A -> Prop) (k : nat) : forall l,
  Forall P l -> Forall P (removeNth k l).
Proof.
  induction k as [|k IH]; intros l Hl; destruct Hl as [|a l Ha Hl]; cbn;
    try constructor; auto.
Qed.

(** What a control can cause: nothing, the call to
    [onExtractionComplete], or one of two alerts. *)
Lemma handler_effects (c : Component) (ctl : Control) :
  offers (viewOf c) ctl = true ->
  let effs := snd (handlerOf (props c) ctl (state c)) in
  effs = []
  \/ (exists numbers, effs = [CallOnExtractionComplete numbers])
  \/ effs = [Alert (lit "Invalid Input") (lit "Numbers cannot be empty.")].
Proof.
  intros Hon. destruct ctl; cbn [handlerOf].
  - destruct (viewOf c) eqn:Hv; try discriminate.
    destruct disabled; [discriminate|].
    destruct (view_ProcessPrompt _ _ _ Hv) as (_ & Hp & _).
    unfold handleProcessImage_start. rewrite Hp. now left.
  - unfold handleModifyNumbers. destruct (displayedNumbers (state c)); now left.
  - unfold handleAcceptNumbers. destruct (displayedNumbers (state c)); now left.
  - unfold handleSaveChanges.
    destruct (JS.eqb (trim (numberInput1 (state c))) []
              || JS.eqb (trim (numberInput2 (state c))) []);
      [now right; right | now left].
  - now left.
  - unfold handleStart. destruct (displayedNumbers (state c)) as [numbers|];
      [right; left; now exists numbers | now left].
  - now left.
  - now left.
Qed.

Lemma step_User_effects (c c' : Component) (ctl : Control) (effs : list Effect) :
  step c (User ctl) = Some (c', effs) ->
  offers (viewOf c) ctl = true
  /\ effs = snd (handlerOf (props c) ctl (state c))
  /\ props c' = props c
  /\ state c' = fst (handlerOf (props c) ctl (state c))
  /\ inFlight c' = inFlight c ++
       match ctl with
       | ProcessImageButton => if hasImage (props c) then [props c] else []
       | _ => []
       end.
Proof.
  cbn [step]. fold (viewOf c).
  destruct (offers (viewOf c) ctl); [|discriminate].
  destruct (handlerOf (props c) ctl (state c)) as [s es].
  intros [= <- <-]. now repeat split.
Qed.

Lemma step_keeps_resetGiven (c c' : Component) (e : Event) (effs : list Effect) :
  step c e = Some (c', effs) -> resetGiven c -> resetGiven c'.
Proof.
  intros Hs [Hp Hf]. destruct e as [uri|ctl|k outcome].
  - cbn [step] in Hs. destruct (sameUri uri (imageUri (props c))).
    + injection Hs as <- _. now split.
    + rewrite resetEffect_initial in Hs. injection Hs as <- _. now split.
  - destruct (step_User_effects c c' ctl effs Hs) as (_ & _ & Hpr & _ & Hfl).
    split; [now rewrite Hpr|]. rewrite Hfl. apply Forall_app. split; [exact Hf|].
    destruct ctl; try constructor.
    destruct (hasImage (props c)); repeat constructor. exact Hp.
  - cbn [step] in Hs. destruct (nth_error (inFlight c) k); [|discriminate].
    destruct (handleProcessImage_resume n outcome (state c)).
    injection Hs as <- _. split; [exact Hp|]. now apply Forall_removeNth.
Qed.

Lemma step_resets (c c' : Component) (e : Event) (effs : list Effect) :
  step c e = Some (c', effs) -> resetGiven c ->
  resets effs = if endsWithoutPair e then 1 else 0.
Proof.
  intros Hs [Hp Hf]. destruct e as [uri|ctl|k outcome]; cbn [endsWithoutPair].
  - cbn [step] in Hs. destruct (sameUri uri (imageUri (props c))).
    + now injection Hs as _ <-.
    + rewrite resetEffect_initial in Hs. now injection Hs as _ <-.
  - destruct (step_User_effects c c' ctl effs Hs) as (Hon & -> & _).
    destruct (handler_effects c ctl Hon) as [->|[[numbers ->]| ->]]; reflexivity.
  - cbn [step] in Hs. destruct (nth_error (inFlight c) k) as [closed|] eqn:Hk;
      [|discriminate].
    assert (Hc : onProcessReset closed = true).
    { rewrite Forall_forall in Hf. apply Hf. now apply (nth_error_In _ k). }
    destruct (handleProcessImage_resume closed outcome (state c)) as [s es] eqn:Hr.
    injection Hs as _ <-.
    unfold handleProcessImage_resume, notifyReset in Hr. rewrite Hc in Hr.
    destruct outcome as [error|numbers].
    + now injection Hr as _ <-.
    + destruct (2 <=? length numbers); now injection Hr as _ <-.
Qed.

(** X13.  When the parent gave [onProcessReset], it is called once for
    every pipeline call that settles without a pair (rejected, or fewer
    than two numbers) and by nothing else: not by a control, not by a new
    image, not by a call that settles with two numbers or more. *)
Theorem reset_called_once_per_fruitless_call (es : list Event) :
  forall (c c' : Component) (effs : list Effect),
  resetGiven c ->
  run c es = Some (c', effs) ->
  resets effs = length (filter endsWithoutPair es).
Proof.
  induction es as [|e es IH]; intros c c' effs Hg; cbn [run].
  - now intros [= _ <-].
  - destruct (step c e) as [[c1 effs1]|] eqn:Hs; [|discriminate].
    destruct (run c1 es) as [[c2 effs2]|] eqn:Hr; [|discriminate].
    intros [= _ <-]. rewrite resets_app.
    rewrite (step_resets c c1 e effs1 Hs Hg).
    rewrite (IH c1 c2 effs2 (step_keeps_resetGiven c c1 e effs1 Hs Hg) Hr).
    cbn [filter]. destruct (endsWithoutPair e); reflexivity.
Qed.

Lemma reset_called_once_per_fruitless_call_witness :
  resetGiven (mount Sample.photo)
  /\ exists c' effs,
       run (mount Sample.photo)
           [User ProcessImageButton; Settled 0 (inr [lit "36.6"]);
            NewImage (imageUri Sample.nextPhoto);
            User ProcessImageButton; Settled 0 (inl (NotAnError []))]
       = Some (c', effs)
       /\ resets effs = 2.
Proof.
  assert (Hg : resetGiven (mount Sample.photo)) by (split; [reflexivity | constructor]).
  split; [exact Hg|].
  destruct (run (mount Sample.photo)
              [User ProcessImageButton; Settled 0 (inr [lit "36.6"]);
               NewImage (imageUri Sample.nextPhoto);
               User ProcessImageButton; Settled 0 (inl (NotAnError []))])
    as [[c' effs]|] eqn:Hr; [|lazy in Hr; discriminate Hr].
  exists c', effs. split; [reflexivity|].
  exact (reset_called_once_per_fruitless_call _ _ _ _ Hg Hr).
Defined.

Lemma step_no_noImageAlert (c c' : Component) (e : Event) (effs : list Effect) :
  step c e = Some (c', effs) -> ~ In noImageAlert effs.
Proof.
  intros Hs Hin. destruct e as [uri|ctl|k outcome].
  - cbn [step] in Hs. destruct (sameUri uri (imageUri (props c))).
    + injection Hs as _ <-. contradiction.
    + rewrite resetEffect_initial in Hs. injection Hs as _ <-. contradiction.
  - destruct (step_User_effects c c' ctl effs Hs) as (Hon & -> & _).
    destruct (handler_effects c ctl Hon) as [He|[[numbers He]|He]];
      rewrite He in Hin; cbn in Hin.
    + contradiction.
    + destruct Hin as [H|[]]; discriminate H.
    + destruct Hin as [H|[]]. lazy in H. discriminate H.
  - cbn [step] in Hs. destruct (nth_error (inFlight c) k) as [closed|]; [|discriminate].
    destruct (handleProcessImage_resume closed outcome (state c)) as [s es] eqn:Hr.
    injection Hs as _ <-.
    unfold handleProcessImage_resume, notifyReset in Hr.
    destruct outcome as [error|numbers].
    + destruct (onProcessReset closed); injection Hr as _ <-; cbn in Hin;
        repeat (destruct Hin as [H|Hin]; [lazy in H; discriminate H|]); contradiction.
    + destruct (2 <=? length numbers), (onProcessReset closed);
        injection Hr as _ <-; cbn in Hin;
        repeat (destruct Hin as [H|Hin]; [lazy in H; discriminate H|]); contradiction.
Qed.

(** X14.  The alert "No image URI available for processing." of
    [handleProcessImage] is never shown: the Process Image button is on
    the screen only when there is an image. *)
Theorem no_image_alert_never_shown (es : list Event) :
  forall (c c' : Component) (effs : list Effect),
  run c es = Some (c', effs) -> ~ In noImageAlert effs.
Proof.
  induction es as [|e es IH]; intros c c' effs; cbn [run].
  - intros [= _ <-] [].
  - destruct (step c e) as [[c1 effs1]|] eqn:Hs; [|discriminate].
    destruct (run c1 es) as [[c2 effs2]|] eqn:Hr; [|discriminate].
    intros [= _ <-] Hin. apply in_app_or in Hin. destruct Hin as [Hin|Hin].
    + exact (step_no_noImageAlert c c1 e effs1 Hs Hin).
    + exact (IH c1 c2 effs2 Hr Hin).
Qed.

Lemma no_image_alert_never_shown_witness :
  exists c' effs,
    run (mount {| imageUri := None; onProcessReset := true |})
        [NewImage (Some []); NewImage (imageUri Sample.photo);
         User ProcessImageButton; Settled 0 (inr [])]
    = Some (c', effs)
    /\ ~ In noImageAlert effs.
Proof.
  destruct (run (mount {| imageUri := None; onProcessReset := true |})
              [NewImage (Some []); NewImage (imageUri Sample.photo);
               User ProcessImageButton; Settled 0 (inr [])])
    as [[c' effs]|] eqn:Hr; [|lazy in Hr; discriminate Hr].
  exists c', effs. split; [reflexivity|].
  exact (no_image_alert_never_shown _ _ _ _ Hr).
Defined.
End AlongRuns.

Ltac parts := repeat match goal with |- _ /\ _ => split end.
Ltac settle := parts; first [reflexivity | assumption | discriminate | idtac].

Section OneCallAtATime.
Import JS ProcessImage NumberExtractorComponent Traces.

Lemma orderly_mount (p : NumberExtractorProps) : orderly p (mount p).
Proof.
  unfold orderly, mount. rewrite resetEffect_initial. cbn.
  repeat split; try discriminate. intros _. lia.
Qed.

Lemma busy_offers_nothing (c : Component) (ctl : Control) :
  hasImage (props c) = true -> loading (state c) = true ->
  offers (viewOf c) ctl = false.
Proof.
  intros Hp Hl. unfold viewOf, renderContent. rewrite Hp, Hl. now destruct ctl.
Qed.

Lemma offered_view (c : Component) (ctl : Control) :
  offers (viewOf c) ctl = true ->
  match ctl with
  | ProcessImageButton => viewOf c = ProcessPrompt false
  | ModifyNumbersButton | AcceptButton => exists numbers, viewOf c = AwaitingDecision numbers
  | SaveChangesButton | CancelButton | Input1 _ | Input2 _ =>
      exists numbers d1 d2, viewOf c = Modifying numbers d1 d2
  | StartButton => exists numbers, viewOf c = Ready numbers
  end.
Proof.
  destruct (viewOf c) as [| |count|disabled|numbers|numbers d1 d2|numbers|];
    destruct ctl; cbn; try discriminate; intros H;
    try (destruct disabled; [discriminate | reflexivity]);
    eauto.
Qed.

Lemma handleStart_state (s : State) : fst (handleStart s) = s.
Proof. unfold handleStart. now destruct (displayedNumbers s). Qed.

Lemma user_keeps_orderly (p : NumberExtractorProps) (c c' : Component)
    (ctl : Control) (effs : list Effect) :
  step c (User ctl) = Some (c', effs) -> orderly p c -> orderly p c'.
Proof.
  intros Hs (Hpr & Hflags & Hshape).
  destruct (step_User_effects c c' ctl effs Hs) as (Hon & _ & Hpr' & Hst & Hfl).
  destruct (inFlight c) as [|closed [|other rest]] eqn:Hin; [| |contradiction].
  2:{ destruct Hshape as (_ & Hp & Hl & _). rewrite <- Hpr in Hp.
      rewrite (busy_offers_nothing c ctl Hp Hl) in Hon. discriminate. }
  destruct Hshape as (Hl & Hfew).
  pose proof (offered_view c ctl Hon) as Hv.
  unfold orderly. rewrite Hpr', Hst, Hfl. split; [exact Hpr|].
  destruct ctl; cbn [handlerOf app].
  - destruct (view_ProcessPrompt _ _ _ Hv) as (_ & Hp & _).
    unfold handleProcessImage_start. rewrite Hp. cbn.
    rewrite <- Hpr. settle.
  - destruct Hv as [numbers Hv].
    destruct (view_AwaitingDecision _ _ _ Hv) as (_ & _ & Hd & _).
    unfold handleModifyNumbers. rewrite Hd. cbn. settle.
  - destruct Hv as [numbers Hv].
    destruct (view_AwaitingDecision _ _ _ Hv) as (_ & _ & Hd & _).
    unfold handleAcceptNumbers. rewrite Hd. cbn. settle.
  - unfold handleSaveChanges.
    destruct (JS.eqb (trim (numberInput1 (state c))) []
              || JS.eqb (trim (numberInput2 (state c))) []); cbn; settle.
  - unfold handleCancelModification. cbn. settle.
  - rewrite handleStart_state. settle.
  - cbn. settle.
  - cbn. settle.
Qed.

Lemma settled_keeps_orderly (p : NumberExtractorProps) (c c' : Component)
    (k : nat) (outcome : thrown + list jsstring) (effs : list Effect) :
  step c (Settled k outcome) = Some (c', effs) -> orderly p c -> orderly p c'.
Proof.
  intros Hs (Hpr & Hflags & Hshape).
  destruct (nth_error (inFlight c) k) as [closed|] eqn:Hk;
    [|cbn [step] in Hs; rewrite Hk in Hs; discriminate].
  rewrite (step_Settled c k closed outcome Hk) in Hs. injection Hs as <- _.
  destruct (inFlight c) as [|q [|other rest]] eqn:Hin; [| |contradiction].
  { destruct k; discriminate. }
  destruct Hshape as (_ & _ & _ & _ & Hall & Hm).
  destruct k as [|k]; [|destruct k; discriminate].
  unfold orderly, settledState. cbn -[Nat.leb length]. split; [exact Hpr|].
  split; [intros H; rewrite Hm in H; discriminate|].
  split; [reflexivity|].
  destruct outcome as [error|numbers].
  - intros _. rewrite Hall. cbn. lia.
  - destruct (2 <=? length numbers) eqn:Hlen; [discriminate|].
    intros _. apply Nat.leb_gt in Hlen. exact Hlen.
Qed.

Lemma orderly_has_a_screen (p : NumberExtractorProps) (c : Component) :
  orderly p c ->
  length (inFlight c) <= 1
  /\ viewOf c <> Blank
  /\ (loading (state c) = true <-> inFlight c <> []).
Proof.
  intros (Hpr & Hflags & Hshape).
  destruct (inFlight c) as [|q [|other rest]] eqn:Hin; [| |contradiction].
  - destruct Hshape as (Hl & Hfew). split; [cbn; lia|]. split.
    + unfold viewOf, renderContent. rewrite Hl.
      destruct (hasImage (props c)); cbn; [|discriminate].
      destruct (displayedNumbers (state c)) as [numbers|]; cbn.
      * destruct (isModifyingNumbers (state c)), (showStartButton (state c));
          discriminate.
      * specialize (Hfew eq_refl).
        destruct (allExtractedNumbers (state c)) as [|n0 [|n1 rest]];
          cbn in Hfew |- *; try discriminate; lia.
    + rewrite Hl. split; [discriminate | intros H; now contradiction H].
  - destruct Hshape as (_ & Hp & Hl & _). split; [cbn; lia|]. split.
    + unfold viewOf, renderContent. rewrite Hpr, Hp, Hl. discriminate.
    + rewrite Hl. split; [discriminate | reflexivity].
Qed.

Lemma run_keeps_orderly (p : NumberExtractorProps) (es : list Event) :
  forall (c c' : Component) (effs : list Effect),
  forallb keepsImage es = true ->
  run c es = Some (c', effs) -> orderly p c -> orderly p c'.
Proof.
  induction es as [|e es IH]; intros c c' effs Hkeep; cbn [run].
  - now intros [= <- _].
  - cbn [forallb] in Hkeep. apply andb_true_iff in Hkeep as [He Hkeep].
    destruct (step c e) as [[c1 effs1]|] eqn:Hs; [|discriminate].
    destruct (run c1 es) as [[c2 effs2]|] eqn:Hr; [|discriminate].
    intros [= <- _] Ho. apply (IH c1 c2 effs2 Hkeep Hr).
    destruct e as [uri|ctl|k outcome]; [discriminate| |].
    + exact (user_keeps_orderly p c c1 ctl effs1 Hs Ho).
    + exact (settled_keeps_orderly p c c1 k outcome effs1 Hs Ho).
Qed.

(** X15.  As long as the image stays the same, whatever the user presses
    and however the pipeline calls settle, a mounted component never has
    two pipeline calls suspended at once, shows the loader exactly while
    one is suspended, never reaches the [null] at the end of
    [renderContent], and never has [isModifyingNumbers] and
    [showStartButton] true together. *)
Theorem one_call_at_a_time
    (p : NumberExtractorProps) (es : list Event) (c : Component) (effs : list Effect) :
  forallb keepsImage es = true ->
  run (mount p) es = Some (c, effs) ->
  props c = p
  /\ length (inFlight c) <= 1
  /\ (loading (state c) = true <-> inFlight c <> [])
  /\ viewOf c <> Blank
  /\ (isModifyingNumbers (state c) = true -> showStartButton (state c) = false).
Proof.
  intros Hkeep Hrun.
  pose proof (run_keeps_orderly p es (mount p) c effs Hkeep Hrun (orderly_mount p)) as Ho.
  destruct (orderly_has_a_screen p c Ho) as (H1 & H2 & H3).
  destruct Ho as (Hpr & Hflags & _).
  split; [exact Hpr|]. split; [exact H1|]. split; [exact H3|].
  split; [exact H2 | exact Hflags].
Qed.

Lemma one_call_at_a_time_witness :
  exists c effs,
    run (mount Sample.photo)
        [User ProcessImageButton; Settled 0 (inl (Error []));
         User ProcessImageButton; Settled 0 (inr [lit "36.6"; lit "101.2"]);
         User ModifyNumbersButton; User (Input1 (lit "37")); User SaveChangesButton]
    = Some (c, effs)
    /\ length (inFlight c) <= 1
    /\ viewOf c <> Blank.
Proof.
  destruct (run (mount Sample.photo)
              [User ProcessImageButton; Settled 0 (inl (Error []));
               User ProcessImageButton; Settled 0 (inr [lit "36.6"; lit "101.2"]);
               User ModifyNumbersButton; User (Input1 (lit "37")); User SaveChangesButton])
    as [[c effs]|] eqn:Hr; [|lazy in Hr; discriminate Hr].
  exists c, effs. split; [reflexivity|].
  destruct (fun Hkeep => one_call_at_a_time Sample.photo _ c effs Hkeep Hr)
    as (_ & H1 & _ & H2 & _); [reflexivity|].
  split; [exact H1 | exact H2].
Defined.

(** The [null] of [renderContent] can be reached when the image changes
    while a call is suspended. *)
Example blank_after_superseded_call :
  exists c effs,
    run (mount Sample.photo)
        [User ProcessImageButton;
         NewImage (imageUri Sample.nextPhoto);
         User ProcessImageButton;
         Settled 1 (inr [lit "36.6"; lit "101.2"]);
         User AcceptButton;
         Settled 0 (inl (Error []))]
    = Some (c, effs)
    /\ viewOf c = Blank.
Proof. eexists. eexists. split; lazy; reflexivity. Qed.
End OneCallAtATime.

(** ** The application *)

Section Application.
Import JS ProcessImage NumericToken NumberExtractorComponent App.

Lemma last_picking (l : list PickStage) (stage : PickStage) :
  nth_error (l ++ [stage]) (length l) = Some stage.
Proof. rewrite nth_error_app2 by lia. now rewrite Nat.sub_diag. Qed.

Lemma setNth_last {A} (l : list A) (a v : A) :
  setNth (length l) v (l ++ [a]) = l ++ [v].
Proof. induction l as [|x l IH]; cbn; [reflexivity | now rewrite IH]. Qed.

Lemma removeNth_last {A} (l : list A) (a : A) :
  removeNth (length l) (l ++ [a]) = l.
Proof. induction l as [|x l IH]; cbn; [reflexivity | now rewrite IH]. Qed.

(** X16.  Pressing the button of [App] at once clears the selected image
    and the final numbers, which unmounts the component and leaves its
    suspended pipeline calls behind.  When the permission is then denied
    (alert "Permission Denied"), or granted and the picker cancelled, or
    the picker returns no asset, the application stays without an image
    and without final numbers: what was confirmed before is gone. *)
Theorem pick_clears_before_asking (s : Screen) :
  exists s1,
    appStep s PressPick = Some (s1, [])
    /\ cells s1 = {| selectedImageUri := None; finalNumbers := None |}
    /\ child s1 = None
    /\ orphans s1 = orphans s ++ suspendedIn (child s)
    /\ (exists s2,
          appStep s1 (PermissionAnswered (length (picking s)) false)
          = Some (s2, [Shown (lit "Permission Denied")
                         (lit "Access to media library is required.")])
          /\ cells s2 = cells s1 /\ child s2 = None /\ picking s2 = picking s)
    /\ (exists s2,
          appStep s1 (PermissionAnswered (length (picking s)) true) = Some (s2, [])
          /\ cells s2 = cells s1 /\ child s2 = None
          /\ forall result, result = Canceled \/ result = Picked [] ->
             exists s3,
               appStep s2 (PickerAnswered (length (picking s)) result) = Some (s3, [])
               /\ cells s3 = cells s1 /\ child s3 = None /\ picking s3 = picking s).
Proof.
  eexists. split; [reflexivity|]. cbn [cells child orphans picking].
  split; [reflexivity|]. split; [reflexivity|]. split; [reflexivity|]. split.
  - eexists. split.
    + cbn [appStep picking]. rewrite last_picking. reflexivity.
    + cbn. split; [reflexivity|]. split; [reflexivity|]. apply removeNth_last.
  - eexists. split.
    { cbn [appStep picking]. rewrite last_picking. reflexivity. }
    cbn [cells child picking handlePickImage_permission negb].
    split; [reflexivity|]. split; [reflexivity|].
    intros result Hr. eexists. split.
    { cbn [appStep picking]. rewrite setNth_last, last_picking.
      destruct Hr as [-> | ->]; reflexivity. }
    cbn. split; [reflexivity|]. split; [reflexivity|]. apply removeNth_last.
Qed.

(** X17.  From the photo to the final numbers: the user picks an image,
    the crop and the reading succeed, and the scan of the text that was
    read starts with [n0] and [n1].  After Process Image, Accept &
    Continue and Start, the final numbers of [App] are [n0] and [n1], and
    the user is told "Numbers for game: n0 and n1". *)
Theorem picked_image_gives_final_numbers
    (manipulateAsync : jsstring -> Rect -> thrown + jsstring)
    (recognize : jsstring -> thrown + jsstring)
    (uri croppedUri ocrText n0 n1 : jsstring) (others : list jsstring) :
  truthy uri = true ->
  manipulateAsync uri CUT_AREA = inr croppedUri ->
  recognize croppedUri = inr ocrText ->
  tokensOf ocrText (n0 :: n1 :: others) ->
  exists s,
    appRun initialScreen
      [PressPick;
       PermissionAnswered 0 true;
       PickerAnswered 0 (Picked [uri]);
       InChild ProcessImageButton;
       ChildSettled 0 (snd (processImageAndExtractNumbers manipulateAsync recognize uri));
       InChild AcceptButton;
       InChild StartButton]
    = Some (s, [Logged (lit "Final numbers ready:") (Some (n0, n1));
                Shown (lit "Ready to Start")
                      (lit "Numbers for game: " ++ n0 ++ lit " and " ++ n1)])
    /\ finalNumbers (cells s) = Some (n0, n1)
    /\ selectedImageUri (cells s) = Some uri
    /\ option_map viewOf (child s) = Some (Ready (n0, n1)).
Proof.
  intros Huri Hcrop Hocr Hscan.
  assert (Hrun : snd (processImageAndExtractNumbers manipulateAsync recognize uri)
                 = inr (n0 :: n1 :: others)).
  { unfold processImageAndExtractNumbers. rewrite cropImage_outcome, Hcrop.
    unfold try_catch, await. cbn [fst snd]. rewrite recognizeText_outcome, Hocr.
    cbn. now rewrite (scan_is_extractNumbers ocrText _ Hscan). }
  rewrite Hrun. destruct uri as [|u0 u]; [discriminate|].
  eexists. split; [lazy; reflexivity|].
  split; [reflexivity|]. split; [reflexivity|]. lazy. reflexivity.
Qed.

Lemma picked_image_gives_final_numbers_witness :
  exists s outs,
    appRun initialScreen
      [PressPick;
       PermissionAnswered 0 true;
       PickerAnswered 0 (Picked [lit "file:///photo-1.jpg"]);
       InChild ProcessImageButton;
       ChildSettled 0 (snd (processImageAndExtractNumbers Sample.cropper Sample.recognizer
                              (lit "file:///photo-1.jpg")));
       InChild AcceptButton;
       InChild StartButton]
    = Some (s, outs)
    /\ finalNumbers (cells s) = Some Sample.readings.
Proof.
  destruct (picked_image_gives_final_numbers Sample.cropper Sample.recognizer
              (lit "file:///photo-1.jpg") (lit "file:///photo-1.jpg.cropped.png")
              Sample.ocrText (lit "36.6") (lit "101.2") [])
    as (s & Hs & Hf & _);
    [reflexivity | reflexivity | reflexivity | exact (scan_of_text Sample.ocrText) |].
  exists s. eexists. split; [exact Hs | exact Hf].
Defined.
End Application.

Section FinalNumbers.
Import JS ProcessImage NumberExtractorComponent App.

Lemma next_final (f g : AppAction) (a : AppState) :
  fst (next f g a) = fst (g (fst (f a))).
Proof. unfold next. destruct (f a) as [a1 o1]. cbn. now destruct (g a1). Qed.

Lemma deliver_without_completion (effs : list Effect) : forall a,
  completions effs = 0 ->
  finalNumbers (fst (deliver effs a)) = finalNumbers a.
Proof.
  induction effs as [|e effs IH]; intros a Hc; [reflexivity|].
  destruct e; cbn [deliver]; rewrite next_final;
    try (rewrite IH; [reflexivity | exact Hc]).
  discriminate Hc.
Qed.

(** X18.  The final numbers of [App] change in two ways only: the button
    of [App] clears them, and Start, pressed while the component shows
    Ready, sets them to the pair on the screen.  Nothing else writes
    them: not the picker, not a pipeline call that settles, not any other
    control. *)
Theorem final_numbers_change_two_ways
    (s s' : Screen) (e : AppEvent) (outs : list Output) :
  appStep s e = Some (s', outs) ->
  finalNumbers (cells s') = finalNumbers (cells s)
  \/ (e = PressPick /\ finalNumbers (cells s') = None)
  \/ (e = InChild StartButton
      /\ exists c numbers,
           child s = Some c /\ viewOf c = Ready numbers
           /\ finalNumbers (cells s') = Some numbers).
Proof.
  assert (Hchild : forall ev, isStart ev = false ->
            childStep s ev = Some (s', outs) ->
            finalNumbers (cells s') = finalNumbers (cells s)).
  { intros ev Hev. unfold childStep.
    destruct (child s) as [c|]; [|discriminate].
    destruct (step c ev) as [[c' effs]|] eqn:Hs; [|discriminate].
    pose proof (step_completions c c' ev effs Hs) as Hc. rewrite Hev in Hc.
    pose proof (deliver_without_completion effs (cells s) Hc) as Hd.
    destruct (deliver effs (cells s)) as [a os]. now intros [= <- _]. }
  destruct e as [|k granted|k result|ctl|k outcome|k outcome]; cbn [appStep].
  - unfold handlePickImage_start, next, setSelectedImageUri, setFinalNumbers.
    cbn [fst snd selectedImageUri finalNumbers app].
    match goal with
    | |- context [render ?a ?b ?c] => destruct (render a b c) as [ch orph]
    end.
    intros [= <- _]. right. left. now split.
  - destruct (nth_error (picking s) k) as [[|]|]; try discriminate.
    destruct granted; cbn; intros [= <- _]; now left.
  - destruct (nth_error (picking s) k) as [[|]|]; try discriminate.
    destruct result as [|[|uri rest]]; cbn [handlePickImage_picked];
      unfold setSelectedImageUri;
      match goal with
      | |- context [render ?a ?b ?c] => destruct (render a b c) as [ch orph]
      end;
      intros [= <- _]; now left.
  - destruct ctl;
      try (intros H; left; refine (Hchild _ _ H); reflexivity).
    unfold childStep. destruct (child s) as [c|] eqn:Hc; [|discriminate].
    destruct (step c (User StartButton)) as [[c' effs]|] eqn:Hs;
      cbv beta iota; [|discriminate].
    destruct (step_User_effects c c' _ effs Hs) as (Hon & He & _).
    destruct (start_offered_in_ready _ Hon) as [numbers Hv].
    destruct (view_Ready _ _ _ Hv) as (_ & _ & Hd & _).
    cbn [handlerOf] in He. unfold handleStart in He. rewrite Hd in He. subst effs.
    cbn. intros [= <- _]. right. right. split; [reflexivity|].
    exists c, numbers. now repeat split.
  - intros H. left. refine (Hchild _ _ H). reflexivity.
  - destruct (nth_error (orphans s) k) as [closed|]; [|discriminate].
    pose proof (deliver_without_completion _ (cells s)
                  (resume_no_completion closed outcome initialState)) as Hd.
    destruct (deliver _ (cells s)) as [a os]. intros [= <- _]. now left.
Qed.

Lemma final_numbers_change_two_ways_witness :
  let s := {| cells := {| selectedImageUri := imageUri Sample.photo;
                          finalNumbers := None |};
              child := Some Sample.ready; picking := []; orphans := [] |} in
  exists s' outs,
    appStep s (InChild StartButton) = Some (s', outs)
    /\ finalNumbers (cells s') = Some Sample.readings.
Proof.
  intros s.
  destruct (appStep s (InChild StartButton)) as [[s' outs]|] eqn:Hs;
    [|lazy in Hs; discriminate Hs].
  exists s', outs. split; [reflexivity|].
  destruct (final_numbers_change_two_ways s s' _ outs Hs)
    as [H|[[H _]|(_ & c & numbers & Hc & Hv & Hf)]].
  - lazy in Hs. injection Hs as <- _. reflexivity.
  - discriminate H.
  - injection Hc as <-. rewrite Hf. f_equal.
    assert (Hr : viewOf Sample.ready = Ready Sample.readings) by reflexivity.
    rewrite Hr in Hv. now injection Hv.
Defined.
End FinalNumbers.

(** ** A new image *)

Section NewImageReset.
Import JS ProcessImage NumberExtractorComponent Traces.

Lemma view_Processing p s :
  renderContent p s = Processing -> hasImage p = true /\ loading s = true.
Proof.
  unfold renderContent.
  destruct (hasImage p); cbn; [|discriminate].
  destruct s as [allN disp load modif in1 in2 start]; cbn.
  destruct load; [now split|]. cbn.
  destruct disp as [numbers|]; cbn.
  - destruct modif, start; discriminate.
  - destruct allN as [|n0 [|n1 rest]]; discriminate.
Qed.

(** The handlers of the controls other than Process Image leave
    [loading] as it is. *)
Lemma handler_keeps_loading (p : NumberExtractorProps) (ctl : Control) (s : State) :
  ctl <> ProcessImageButton ->
  loading (fst (handlerOf p ctl s)) = loading s.
Proof.
  intros Hctl. destruct ctl; try contradiction; cbn [handlerOf].
  - unfold handleModifyNumbers. now destruct (displayedNumbers s).
  - unfold handleAcceptNumbers. now destruct (displayedNumbers s).
  - unfold handleSaveChanges.
    now destruct (JS.eqb (trim (numberInput1 s)) [] || JS.eqb (trim (numberInput2 s)) []).
  - reflexivity.
  - now rewrite handleStart_state.
  - reflexivity.
  - reflexivity.
Qed.

(** One event leads to the loader only if it is a press on Process
    Image, unless the loader was there already. *)
Lemma loader_needs_press (c c' : Component) (e : Event) (effs : list Effect) :
  step c e = Some (c', effs) ->
  viewOf c' = Processing ->
  viewOf c = Processing \/ e = User ProcessImageButton.
Proof.
  intros Hs Hv. destruct (view_Processing _ _ Hv) as [_ Hl].
  destruct e as [uri|ctl|k outcome].
  - cbn [step] in Hs. destruct (sameUri uri (imageUri (props c))).
    + injection Hs as <- _. now left.
    + rewrite resetEffect_initial in Hs. injection Hs as <- _. discriminate Hl.
  - destruct ctl; try (now right); exfalso;
      destruct (step_User_effects c c' _ effs Hs) as (Hon & _ & _ & Hst & _);
      pose proof (offered_view c _ Hon) as Hview;
      rewrite Hst, handler_keeps_loading in Hl by discriminate;
      cbn in Hview;
      repeat match goal with
             | H : exists _, _ |- _ => destruct H as [? H]
             end;
      first [ destruct (view_AwaitingDecision _ _ _ Hview) as (_ & Hf & _)
            | destruct (view_Modifying _ _ _ _ _ Hview) as (_ & Hf & _)
            | destruct (view_Ready _ _ _ Hview) as (_ & Hf & _) ];
      rewrite Hf in Hl; discriminate Hl.
  - cbn [step] in Hs. destruct (nth_error (inFlight c) k) as [closed|] eqn:Hk;
      [|discriminate].
    pose proof (step_Settled c k closed outcome Hk) as Hst. cbn [step] in Hst.
    rewrite Hk in Hst. rewrite Hst in Hs. injection Hs as <- _.
    discriminate Hl.
Qed.

Lemma loader_reached_by_press (es : list Event) :
  forall (c c' : Component) (effs : list Effect),
  run c es = Some (c', effs) ->
  viewOf c' = Processing ->
  viewOf c = Processing \/ In (User ProcessImageButton) es.
Proof.
  induction es as [|e es IH]; intros c c' effs; cbn [run].
  - intros [= <- _] Hv. now left.
  - destruct (step c e) as [[c1 effs1]|] eqn:Hs; [|discriminate].
    destruct (run c1 es) as [[c2 effs2]|] eqn:Hr; [|discriminate].
    intros [= <- _] Hv.
    destruct (IH c1 c2 effs2 Hr Hv) as [Hv1|Hin]; [|right; now right].
    destruct (loader_needs_press c c1 e effs1 Hs Hv1) as [Hv0| ->];
      [now left | right; now left].
Qed.

(** C3, as the code has it.  From every state, a new image (a non-empty
    uri other than the current one) puts every state cell back to its
    initial value and shows the Process Image button, with [loading]
    false; no pipeline call is started, and the calls that were suspended
    stay suspended.  From there the loader (Processing) is reached only
    through a press on Process Image; that press starts a call, and when
    this call settles with at least two numbers the component shows
    AwaitingDecision with the first two of them and empty drafts.  If no
    call was suspended when the image came, the component is the freshly
    mounted component of the new image, so whatever follows shows nothing
    of the previous cycle.  A call of the previous image that was still
    suspended is all that survives the reset: when it settles, its result
    is written over the initial cells. *)
Theorem new_image_resets_to_prompt (c : Component) (uri : jsstring) :
  truthy uri = true ->
  sameUri (Some uri) (imageUri (props c)) = false ->
  step c (NewImage (Some uri)) = Some (withNewImage c uri, [])
  /\ state (withNewImage c uri) = initialState
  /\ inFlight (withNewImage c uri) = inFlight c
  /\ viewOf (withNewImage c uri) = ProcessPrompt false
  /\ (forall es c2 effs,
        run (withNewImage c uri) es = Some (c2, effs) ->
        viewOf c2 = Processing -> In (User ProcessImageButton) es)
  /\ (exists c2,
        step (withNewImage c uri) (User ProcessImageButton) = Some (c2, [])
        /\ viewOf c2 = Processing
        /\ inFlight c2 = inFlight c ++ [props (withNewImage c uri)]
        /\ forall numbers, 2 <= length numbers ->
           exists c3,
             step c2 (Settled (length (inFlight c)) (inr numbers)) = Some (c3, [])
             /\ state c3 =
                {| allExtractedNumbers := numbers;
                   displayedNumbers := Some (nth 0 numbers [], nth 1 numbers []);
                   loading := false;
                   isModifyingNumbers := false;
                   numberInput1 := [];
                   numberInput2 := [];
                   showStartButton := false |}
             /\ viewOf c3 = AwaitingDecision (nth 0 numbers [], nth 1 numbers []))
  /\ (inFlight c = [] ->
      withNewImage c uri = mount (props (withNewImage c uri))
      /\ forall es, run (withNewImage c uri) es = run (mount (props (withNewImage c uri))) es)
  /\ (forall k closed outcome,
        nth_error (inFlight c) k = Some closed ->
        exists effs,
          step (withNewImage c uri) (Settled k outcome) =
          Some ({| props := props (withNewImage c uri);
                   state := settledState outcome initialState;
                   inFlight := removeNth k (inFlight c) |}, effs)).
Proof.
  intros Huri Hnew.
  set (p := {| imageUri := Some uri; onProcessReset := onProcessReset (props c) |}).
  assert (Hp : hasImage p = true) by exact Huri.
  assert (Hv1 : viewOf (withNewImage c uri) = ProcessPrompt false).
  { unfold viewOf, withNewImage. cbn [props state]. fold p.
    now rewrite render_without_pair. }
  split.
  { cbn [step]. rewrite Hnew. fold p. now rewrite resetEffect_initial. }
  split; [reflexivity|]. split; [reflexivity|]. split; [exact Hv1|].
  split.
  { intros es c2 effs Hrun Hv.
    destruct (loader_reached_by_press es _ c2 effs Hrun Hv) as [Hv0|Hin];
      [|exact Hin].
    rewrite Hv1 in Hv0. discriminate Hv0. }
  split.
  { rewrite (step_Process _ Hv1). eexists. split; [reflexivity|].
    split.
    { unfold viewOf, renderContent. cbn [props state withNewImage loading]. fold p.
      now rewrite Hp. }
    split; [reflexivity|].
    intros numbers Hlen. apply Nat.leb_le in Hlen.
    eexists. split.
    { erewrite step_Settled
        by (cbn [inFlight withNewImage]; apply last_in_flight).
      f_equal. f_equal. unfold handleProcessImage_resume. rewrite Hlen. reflexivity. }
    split.
    { unfold settledState. cbn -[Nat.leb nth length]. now rewrite Hlen. }
    unfold viewOf. cbn [props state withNewImage]. fold p.
    rewrite render_with_pair with (numbers := (nth 0 numbers [], nth 1 numbers []));
      [reflexivity | exact Hp | reflexivity
      | unfold settledState; cbn -[Nat.leb nth length]; now rewrite Hlen]. }
  split.
  { intros Hnone.
    assert (Hm : withNewImage c uri = mount (props (withNewImage c uri))).
    { unfold withNewImage, mount. cbn [props]. rewrite resetEffect_initial, Hnone.
      reflexivity. }
    split; [exact Hm|]. intros es. now rewrite <- Hm. }
  intros k closed outcome Hk. eexists.
  apply (step_Settled (withNewImage c uri) k closed outcome). exact Hk.
Qed.

Lemma new_image_resets_to_prompt_witness :
  truthy (lit "file:///photo-2.jpg") = true
  /\ sameUri (Some (lit "file:///photo-2.jpg")) (imageUri (props Sample.editingPadded)) = false
  /\ step Sample.editingPadded (NewImage (Some (lit "file:///photo-2.jpg")))
     = Some (mount Sample.nextPhoto, [])
  /\ viewOf (mount Sample.nextPhoto) = ProcessPrompt false.
Proof.
  split; [reflexivity|]. split; [reflexivity|].
  destruct (new_image_resets_to_prompt Sample.editingPadded (lit "file:///photo-2.jpg"))
    as (Hs & _ & _ & Hv & _ & _ & Hm & _); [reflexivity | reflexivity |].
  destruct (Hm eq_refl) as [He _].
  assert (Hp : props (withNewImage Sample.editingPadded (lit "file:///photo-2.jpg"))
               = Sample.nextPhoto) by reflexivity.
  rewrite Hp in He. rewrite He in Hs, Hv. split; [exact Hs | exact Hv].
Defined.

(** The case with a call still suspended: the image changes while the
    call on the first photo is running; when that call settles, the
    numbers of the first photo are shown under the second. *)
Example previous_call_survives_new_image :
  exists c effs,
    run Sample.processing
        [NewImage (imageUri Sample.nextPhoto);
         Settled 0 (inr [lit "36.6"; lit "101.2"])]
    = Some (c, effs)
    /\ props c = Sample.nextPhoto
    /\ viewOf c = AwaitingDecision Sample.readings.
Proof. eexists. eexists. split; [lazy; reflexivity|]. evaluate. Qed.
End NewImageReset.
